(** * EcoSort-AI: the waste analyzer page (src/app/demo/page.tsx)

    A shallow embedding of the page component [WasteAnalyzerPage]: its five
    pieces of React state, the two handlers [handleFileChange] and
    [handleAnalyze] (with the helper [fileToGenerativePart] and the
    fetch-with-retry loop), and the part of the render function that
    depends on the state.

    Handlers are computations in a small monad that records the effects
    they perform (state setters, [fetch], [setTimeout] sleeps,
    [console.error]) and ends in a value, a thrown error, or a promise
    that never settles. *)

From Stdlib Require Import String Ascii List ZArith Bool Lia Floats.
From Stdlib Require Import Strings.Byte DecimalString.
Import ListNotations.
Local Open Scope string_scope.
Local Open Scope Z_scope.
Set Warnings "-register-all".

(** ** JavaScript values *)

Module JS.

(** The values that flow through the page: what [JSON.parse] can produce,
    plus [undefined]. Objects keep their properties in insertion order. *)
Inductive value : Type :=
| VUndefined
| VNull
| VBool (b : bool)
| VNum (x : float)
| VStr (s : string)
| VArr (xs : list value)
| VObj (fields : list (string * value)).

(** A thrown [Error]; the handlers only ever read [err.message]. *)
Record Error : Type := mkError { message : string }.

(** ToBoolean. *)
Definition truthy (v : value) : bool :=
  match v with
  | VUndefined | VNull => false
  | VBool b => b
  | VNum x => negb (PrimFloat.is_zero x || PrimFloat.is_nan x)
  | VStr s => negb (String.eqb s "")
  | VArr _ | VObj _ => true
  end.

(** Own property [k] of an object (an object has each key once). *)
Fixpoint lookup (k : string) (fields : list (string * value)) : value :=
  match fields with
  | [] => VUndefined
  | (k', v) :: rest => if String.eqb k k' then v else lookup k rest
  end.

(** [v.k] for a property name [k] that no prototype defines (all the names
    the page reads are of that kind). [None] is the TypeError raised when
    [v] is [null] or [undefined]. *)
Definition get (v : value) (k : string) : option value :=
  match v with
  | VUndefined | VNull => None
  | VObj fields => Some (lookup k fields)
  | _ => Some VUndefined
  end.

(** [v[0]]. *)
Definition get0 (v : value) : option value :=
  match v with
  | VUndefined | VNull => None
  | VArr xs => Some (nth 0 xs VUndefined)
  | VStr (String c _) => Some (VStr (String c ""))
  | VObj fields => Some (lookup "0" fields)
  | _ => Some VUndefined
  end.

(** Optional chaining: [v?.k] and [v?.[0]]. *)
Definition get_opt (v : value) (k : string) : value :=
  match get v k with Some w => w | None => VUndefined end.

Definition get0_opt (v : value) : value :=
  match get0 v with Some w => w | None => VUndefined end.

End JS.
Import JS.

(** ** Strings: decimal numbers, [split], base64 *)

Definition string_of_Z (z : Z) : string :=
  NilZero.string_of_int (Z.to_int z).

(** [s.split(c)] for a one-character separator. *)
Fixpoint split (c : ascii) (s : string) : list string :=
  match s with
  | EmptyString => [""]
  | String a s' =>
      if Ascii.eqb a c then "" :: split c s'
      else match split c s' with
           | [] => [String a ""]
           | h :: t => String a h :: t
           end
  end.

Fixpoint occurs (c : ascii) (s : string) : bool :=
  match s with
  | EmptyString => false
  | String a s' => Ascii.eqb a c || occurs c s'
  end.

Definition b64_alphabet : list ascii :=
  list_ascii_of_string
    "ABCDEFGHIJKLMNOPQRSTUVWXYZabcdefghijklmnopqrstuvwxyz0123456789+/".

Definition b64_digit (n : N) : ascii :=
  nth (N.to_nat n) b64_alphabet "="%char.

(** Standard base64 with padding, as [FileReader.readAsDataURL] emits it. *)
Fixpoint base64 (bs : list byte) : string :=
  match bs with
  | [] => ""
  | [a] =>
      let n := (Byte.to_N a * 65536)%N in
      String (b64_digit (n / 262144)) (String (b64_digit (n / 4096 mod 64)) "==")
  | [a; b] =>
      let n := (Byte.to_N a * 65536 + Byte.to_N b * 256)%N in
      String (b64_digit (n / 262144)) (String (b64_digit (n / 4096 mod 64))
        (String (b64_digit (n / 64 mod 64)) "="))
  | a :: b :: c :: rest =>
      let n := (Byte.to_N a * 65536 + Byte.to_N b * 256 + Byte.to_N c)%N in
      String (b64_digit (n / 262144)) (String (b64_digit (n / 4096 mod 64))
        (String (b64_digit (n / 64 mod 64)) (String (b64_digit (n mod 64))
          (base64 rest))))
  end.

(** ** [JSON.stringify] *)

Definition hex_digit (n : N) : ascii :=
  nth (N.to_nat n) (list_ascii_of_string "0123456789abcdef") "0"%char.

Definition dquote : ascii := "034"%char.

(** QuoteJSONString, without the surrounding quotes. *)
Fixpoint escape (s : string) : string :=
  match s with
  | EmptyString => ""
  | String c s' =>
      let n := N_of_ascii c in
      (if (n =? 34)%N then String "\"%char (String dquote "")
       else if (n =? 92)%N then "\\"
       else if (n =? 8)%N then "\b"
       else if (n =? 9)%N then "\t"
       else if (n =? 10)%N then "\n"
       else if (n =? 12)%N then "\f"
       else if (n =? 13)%N then "\r"
       else if (n <? 32)%N
         then "\u00" ++ String (hex_digit (n / 16)) (String (hex_digit (n mod 16)) "")
       else String c "") ++ escape s'
  end.

Definition quote (s : string) : string :=
  String dquote (escape s ++ String dquote "").

Fixpoint join (sep : string) (l : list string) : string :=
  match l with
  | [] => ""
  | [s] => s
  | s :: rest => s ++ sep ++ join sep rest
  end.

Section Stringify.

(** [Number.prototype.toString] on a finite number: the one part of
    [JSON.stringify] that is taken as given. *)
Variable Number_toString : float -> string.

Definition is_finite (x : float) : bool :=
  negb (PrimFloat.is_nan x || PrimFloat.is_infinity x).

(** SerializeJSONProperty; [None] is [undefined]. Array holes and
    [undefined] elements print as [null], [undefined] properties are left
    out. *)
Fixpoint stringify (v : value) : option string :=
  match v with
  | VUndefined => None
  | VNull => Some "null"
  | VBool true => Some "true"
  | VBool false => Some "false"
  | VNum x => Some (if is_finite x then Number_toString x else "null")
  | VStr s => Some (quote s)
  | VArr xs =>
      let elems :=
        (fix go (l : list value) : list string :=
           match l with
           | [] => []
           | w :: l' =>
               match stringify w with
               | Some s => s
               | None => "null"
               end :: go l'
           end) xs in
      Some ("[" ++ join "," elems ++ "]")
  | VObj fields =>
      let props :=
        (fix go (l : list (string * value)) : list string :=
           match l with
           | [] => []
           | (k, w) :: l' =>
               match stringify w with
               | Some s => (quote k ++ ":" ++ s) :: go l'
               | None => go l'
               end
           end) fields in
      Some ("{" ++ join "," props ++ "}")
  end.

End Stringify.

(** ** The browser: files, the network, builtins *)

(** A [File] picked in the file input: its name, [file.type] and content. *)
Record File : Type := mkFile {
  file_name : string;
  file_type : string;
  file_bytes : list byte
}.

(** What [reader.result] holds after a successful [readAsDataURL]: an
    RFC 2397 data URL with the file's media type and its base64 content.
    For an empty [file.type] the File API leaves the media type out, as
    here, where browsers write [application/octet-stream]; the part after
    the first comma, the only part the page reads, is the same. *)
Definition readAsDataURL (file : File) : string :=
  "data:" ++ file_type file ++ ";base64," ++ base64 (file_bytes file).

(** A [Response] as far as the page looks at it; [json] is what awaiting
    [response.json()] gives, a value or a rejection. *)
Record Response : Type := mkResponse {
  status : Z;
  statusText : string;
  json : Error + value
}.

Definition ok (r : Response) : bool :=
  (200 <=? status r) && (status r <=? 299).

Inductive FetchResult : Type :=
| Rejects (err : Error)          (* network failure: fetch throws *)
| Resolves (r : Response).

(** Everything one run of a handler gets from outside. *)
Record Env : Type := mkEnv {
  (** [false]: the read fails, so [loadend] fires with [reader.result]
      being [null]. *)
  reader_loads : bool;
  (** The outcome of the n-th call of [fetch] (from 0) in this run. *)
  network : nat -> FetchResult;
  (** [JSON.parse], applied to whatever value it is handed. *)
  JSON_parse : value -> Error + value;
  Number_toString : float -> string
}.

Record RequestInit : Type := mkInit {
  method : string;
  headers : list (string * string);
  body : option string
}.

(** ** Page state and effects *)

(** The five [useState] cells of [WasteAnalyzerPage]. *)
Record State : Type := mkState {
  imageFile : option File;
  imagePreview : string;
  analysisResult : value;
  isLoading : bool;
  error : string
}.

(** lines 35-39 *)
Definition initial : State :=
  {| imageFile := None; imagePreview := ""; analysisResult := VNull;
     isLoading := false; error := "" |}.

Inductive effect : Type :=
| SetImageFile (f : File)
| SetImagePreview (url : string)
| SetAnalysisResult (v : value)
| SetIsLoading (b : bool)
| SetError (msg : string)
| Fetch (url : string) (init : RequestInit)
| Sleep (ms : Z)
| ConsoleError (label : string) (err : Error).

Definition apply (st : State) (e : effect) : State :=
  match e with
  | SetImageFile f =>
      {| imageFile := Some f; imagePreview := imagePreview st;
         analysisResult := analysisResult st; isLoading := isLoading st;
         error := error st |}
  | SetImagePreview url =>
      {| imageFile := imageFile st; imagePreview := url;
         analysisResult := analysisResult st; isLoading := isLoading st;
         error := error st |}
  | SetAnalysisResult v =>
      {| imageFile := imageFile st; imagePreview := imagePreview st;
         analysisResult := v; isLoading := isLoading st; error := error st |}
  | SetIsLoading b =>
      {| imageFile := imageFile st; imagePreview := imagePreview st;
         analysisResult := analysisResult st; isLoading := b;
         error := error st |}
  | SetError msg =>
      {| imageFile := imageFile st; imagePreview := imagePreview st;
         analysisResult := analysisResult st; isLoading := isLoading st;
         error := msg |}
  | Fetch _ _ | Sleep _ | ConsoleError _ _ => st
  end.

Definition run (st : State) (trace : list effect) : State :=
  fold_left apply trace st.

(** ** The handler monad *)

(** The [let] variables of [handleAnalyze] (lines 196-198). [fetches]
    is not in the source: it counts the calls of [fetch] made so far and
    selects the network's answer. *)
Record Frame : Type := mkFrame {
  response : option Response;
  retries : Z;
  delay : Z;
  fetches : nat
}.

Definition frame0 : Frame :=
  {| response := None; retries := 0; delay := 0; fetches := 0 |}.

(** How a piece of code ends: the completion records of ECMAScript, and
    [Never] for code that does not get to its end (an [await] on a promise
    that is never settled, a loop that is out of fuel). *)
Inductive completion (A : Type) : Type :=
| Normal (a : A)
| Throw (err : Error)
| Break
| Never.
Arguments Normal {A} a.
Arguments Throw {A} err.
Arguments Break {A}.
Arguments Never {A}.

(** A computation reads and writes the frame, records the effects it
    performs in order, and completes. Assignments and effects made before
    a [throw] or a [break] stay. *)
Definition M (A : Type) : Type := Frame -> list effect * Frame * completion A.

Definition ret {A} (a : A) : M A := fun fr => ([], fr, Normal a).

Definition bind {A B} (m : M A) (k : A -> M B) : M B :=
  fun fr =>
    match m fr with
    | (t, fr', Normal a) => let '(t', fr'', c) := k a fr' in ((t ++ t')%list, fr'', c)
    | (t, fr', Throw err) => (t, fr', Throw err)
    | (t, fr', Break) => (t, fr', Break)
    | (t, fr', Never) => (t, fr', Never)
    end.

Definition throw {A} (err : Error) : M A := fun fr => ([], fr, Throw err).
Definition break {A} : M A := fun fr => ([], fr, Break).
Definition never {A} : M A := fun fr => ([], fr, Never).
Definition perform (e : effect) : M unit := fun fr => ([e], fr, Normal tt).
Definition read {A} (f : Frame -> A) : M A := fun fr => ([], fr, Normal (f fr)).
Definition assign (f : Frame -> Frame) : M unit := fun fr => ([], f fr, Normal tt).

(** [try { m } catch (err) { handler err }] *)
Definition try_catch {A} (m : M A) (handler : Error -> M A) : M A :=
  fun fr =>
    match m fr with
    | (t, fr', Throw err) =>
        let '(t', fr'', c) := handler err fr' in ((t ++ t')%list, fr'', c)
    | r => r
    end.

(** [try { m } finally { f }]: [f] runs when [m] completes, normally or
    not, and the completion of [m] stands unless [f] ends abruptly. *)
Definition try_finally {A} (m : M A) (f : M unit) : M A :=
  fun fr =>
    match m fr with
    | (t, fr', Never) => (t, fr', Never)
    | (t, fr', c) =>
        let '(t', fr'', c') := f fr' in
        ((t ++ t')%list, fr'',
         match c' with
         | Normal _ => c
         | Throw err => Throw err
         | Break => Break
         | Never => Never
         end)
    end.

(** [while (cond) { body }]. A [break] in the body ends the loop normally.
    The loop stops as [Never] when the fuel is used up. *)
Fixpoint while (fuel : nat) (cond : Frame -> bool) (body : M unit) : M unit :=
  fun fr =>
    if cond fr then
      match fuel with
      | O => ([], fr, Never)
      | S fuel' =>
          match body fr with
          | (t, fr', Normal _) =>
              let '(t', fr'', c) := while fuel' cond body fr' in
              ((t ++ t')%list, fr'', c)
          | (t, fr', Break) => (t, fr', Normal tt)
          | (t, fr', Throw err) => (t, fr', Throw err)
          | (t, fr', Never) => (t, fr', Never)
          end
      end
    else ([], fr, Normal tt).

Declare Scope js_scope.
Delimit Scope js_scope with js.
Notation "x <- m ;; k" := (bind m (fun x => k))
  (at level 100, m at next level, right associativity) : js_scope.
Notation "m ;; k" := (bind m (fun _ => k))
  (at level 100, right associativity) : js_scope.
Local Open Scope js_scope.

(** Calling a handler: a fresh frame; what is seen from outside is the
    effects and how the call ended. *)
Definition call {A} (m : M A) : list effect * completion A :=
  let '(t, _, c) := m frame0 in (t, c).

Definition trace {A} (m : M A) : list effect := fst (call m).
Definition outcome {A} (m : M A) : completion A := snd (call m).

(** The state the page is in once the effects of [m] are applied. *)
Definition exec {A} (st : State) (m : M A) : State := run st (trace m).

Definition returns {A} (m : M A) : bool :=
  match outcome m with
  | Normal _ => true
  | _ => false
  end.

(** ** The page component *)

(** lines 21-31. The promise is resolved from [onloadend]; when the read
    failed, [reader.result] is [null], the callback throws inside the event
    handler and nothing ever settles the promise. *)
Definition fileToGenerativePart (env : Env) (file : File) : M value :=
  data <- (if reader_loads env
           then ret (match nth_error (split ","%char (readAsDataURL file)) 1 with
                     | Some s => VStr s
                     | None => VUndefined
                     end)
           else never);;
  ret (VObj [("inlineData",
              VObj [("data", data); ("mimeType", VStr (file_type file))])]).

(** The change event of the file input: [e.target.files]. *)
Record ChangeEvent : Type := mkChange { files : list File }.

(** lines 44-52. [preview] is the object URL that [URL.createObjectURL]
    hands out for this call. *)
Definition handleFileChange (preview : string) (e : ChangeEvent) : M unit :=
  match nth_error (files e) 0 with
  | Some file =>
      perform (SetImageFile file);;
      perform (SetImagePreview preview);;
      perform (SetAnalysisResult VNull);;
      perform (SetError "")
  | None => ret tt
  end.

(** lines 70-71 *)
Definition apiKey : string := "".
Definition apiUrl : string :=
  "https://generativelanguage.googleapis.com/v1beta/models/gemini-2.5-flash-preview-09-2025:generateContent?key="
  ++ apiKey.

(** lines 75-82 *)
Definition systemPrompt : string :=
  "You are a waste management expert. Analyze the user's image of a waste item. First, identify the waste type, home treatment, and industry treatment for the item in the image. " ++
  "In *addition* to identifying the item, you must *also* generate a complete set of *mock dashboard data* (stats, charts) to simulate a full user profile. " ++
  "The identified item (waste_type, etc.) should be based on the image, but all other dashboard data should be plausibly fabricated. " ++
  "Ensure the generated hex colors are distinct and aesthetically pleasing in a dark mode UI. " ++
  "Respond *only* with the complete JSON object requested.".

Definition userQuery : string :=
  "Analyze this image and provide waste treatment information and mock dashboard data.".

Definition prop (type description : string) : value :=
  VObj [("type", VStr type); ("description", VStr description)].

Definition required : list string :=
  ["waste_type"; "home_treatment"; "industry_treatment"; "stats";
   "waste_composition"; "disposal_trends"; "recycling_rates"].

(** lines 85-177 *)
Definition schema : value :=
  VObj [
    ("type", VStr "OBJECT");
    ("properties", VObj [
      ("waste_type", prop "STRING"
         "The common name of the waste item in the image (e.g., 'Plastic Water Bottle', 'Apple Core').");
      ("home_treatment", prop "STRING"
         "Concise instructions for how a person should dispose of this item at home.");
      ("industry_treatment", prop "STRING"
         "A brief explanation of what happens to this item at an industrial/municipal level.");
      ("stats", VObj [
         ("type", VStr "OBJECT");
         ("description", VStr "A set of mock statistics for the user's dashboard.");
         ("properties", VObj [
            ("recycled_items_count", prop "NUMBER"
               "A mock count of total items recycled by this user (e.g., 2847).");
            ("carbon_saved_kg", prop "STRING"
               "A mock string representing total carbon saved, including units (e.g., '284 kg').");
            ("average_score_percent", prop "STRING"
               "A mock user 'eco-score' as a percentage string (e.g., '87%').")])]);
      ("waste_composition", VObj [
         ("type", VStr "ARRAY");
         ("description", VStr "An array of 5 objects representing the user's mock waste composition for a pie chart.");
         ("items", VObj [
            ("type", VStr "OBJECT");
            ("properties", VObj [
               ("name", prop "STRING" "Category of waste (e.g., 'Plastic').");
               ("value", prop "NUMBER" "Percentage value (e.g., 35).");
               ("color", prop "STRING"
                  "A hex color code for the chart slice (e.g., '#e78a53').")])])]);
      ("disposal_trends", VObj [
         ("type", VStr "ARRAY");
         ("description", VStr "An array of 6 objects for the last 6 months' disposal trends.");
         ("items", VObj [
            ("type", VStr "OBJECT");
            ("properties", VObj [
               ("month", prop "STRING" "Abbreviated month name (e.g., 'Jan').");
               ("home", prop "NUMBER" "Mock 'Home' disposal value for the month.");
               ("industrial", prop "NUMBER"
                  "Mock 'Industrial' disposal value for the month.")])])]);
      ("recycling_rates", VObj [
         ("type", VStr "ARRAY");
         ("description", VStr "An array of 5 objects representing mock recycling rates per category for a bar chart.");
         ("items", VObj [
            ("type", VStr "OBJECT");
            ("properties", VObj [
               ("category", prop "STRING" "Waste category (e.g., 'Plastic').");
               ("rate", prop "NUMBER" "Recycling rate percentage (e.g., 68).")])])])]);
    ("required", VArr (map VStr required))].

(** lines 179-193 *)
Definition payload (imagePart : value) : value :=
  VObj [
    ("contents", VArr [
       VObj [("role", VStr "user");
             ("parts", VArr [VObj [("text", VStr userQuery)]; imagePart])]]);
    ("systemInstruction", VObj [("parts", VArr [VObj [("text", VStr systemPrompt)]])]);
    ("generationConfig", VObj [
       ("responseMimeType", VStr "application/json");
       ("responseSchema", schema)])].

(** lines 202-206: the second argument of [fetch]. *)
Definition request (env : Env) (payload : value) : RequestInit :=
  {| method := "POST";
     headers := [("Content-Type", "application/json")];
     body := stringify (Number_toString env) payload |}.

(** [await fetch(url, init)]: the call is recorded, then the promise
    resolves with a response or rejects. *)
Definition fetch (env : Env) (url : string) (init : RequestInit) : M Response :=
  fun fr =>
    ([Fetch url init],
     {| response := response fr; retries := retries fr; delay := delay fr;
        fetches := S (fetches fr) |},
     match network env (fetches fr) with
     | Rejects err => Throw err
     | Resolves r => Normal r
     end).

(** [await new Promise((resolve) => setTimeout(resolve, ms))] *)
Definition sleep (ms : Z) : M unit := perform (Sleep ms).

Definition set_response (r : option Response) : M unit :=
  assign (fun fr => {| response := r; retries := retries fr;
                       delay := delay fr; fetches := fetches fr |}).

Definition set_retries (n : Z) : M unit :=
  assign (fun fr => {| response := response fr; retries := n;
                       delay := delay fr; fetches := fetches fr |}).

Definition set_delay (d : Z) : M unit :=
  assign (fun fr => {| response := response fr; retries := retries fr;
                       delay := d; fetches := fetches fr |}).

(** [delay *= 2] and [retries--] *)
Definition double_delay : M unit := d <- read delay;; set_delay (d * 2).
Definition decr_retries : M unit := n <- read retries;; set_retries (n - 1).

(** The TypeError of reading a property of [null] or [undefined] (the
    wording is the engine's; V8's is used). *)
Definition cannot_read (what prop : string) : Error :=
  mkError ("Cannot read properties of " ++ what ++ " (reading '" ++ prop ++ "')").

Definition nullish_name (v : value) : string :=
  match v with VNull => "null" | _ => "undefined" end.

(** [v.k] and [v[0]] as statements that may throw. *)
Definition member (v : value) (k : string) : M value :=
  match get v k with
  | Some w => ret w
  | None => throw (cannot_read (nullish_name v) k)
  end.

Definition member0 (v : value) : M value :=
  match get0 v with
  | Some w => ret w
  | None => throw (cannot_read (nullish_name v) "0")
  end.

(** line 212 *)
Definition retryable (r : Response) : bool :=
  (status r =? 429) || (status r >=? 500).

(** line 219 *)
Definition api_error (r : Response) : Error :=
  mkError ("APIError: " ++ string_of_Z (status r) ++ " " ++ statusText r).

(** lines 201-226: one turn of the retry loop. *)
Definition attempt (env : Env) (init : RequestInit) : M unit :=
  try_catch
    (r <- fetch env apiUrl init;;
     set_response (Some r);;
     if ok r then break
     else if retryable r then
       (d <- read delay;;
        sleep d;;
        double_delay;;
        decr_retries)
     else
       throw (api_error r))
    (fun err =>
       n <- read retries;;
       if n =? 1 then throw err
       else
         (d <- read delay;;
          sleep d;;
          double_delay;;
          decr_retries)).

(** line 200: the loop condition *)
Definition retrying (fr : Frame) : bool := retries fr >? 0.

(** Fuel for the retry loop; [retry_loop_fuel] shows that it is never
    used up and that more fuel changes nothing. *)
Definition retry_fuel : nat := 3.

(** lines 196-227 *)
Definition retry_loop (fuel : nat) (env : Env) (init : RequestInit) : M unit :=
  set_response None;;
  set_retries 3;;
  set_delay 1000;;
  while fuel retrying (attempt env init).

(** lines 229-242 *)
Definition read_result (env : Env) : M unit :=
  resp <- read response;;
  r <- (match resp with
        | Some r => ret r
        | None => throw (cannot_read "undefined" "ok")
        end);;
  (if negb (ok r)
   then throw (mkError ("Failed to analyze image after retries: " ++ statusText r))
   else ret tt);;
  result <- (match json r with
             | inl err => throw err
             | inr v => ret v
             end);;
  candidates <- member result "candidates";;
  let candidate := get0_opt candidates in
  usable <- (if truthy candidate
             then content <- member candidate "content";;
                  ret (truthy (get_opt (get0_opt (get_opt content "parts")) "text"))
             else ret false);;
  if usable then
    content <- member candidate "content";;
    parts <- member content "parts";;
    part0 <- member0 parts;;
    jsonText <- member part0 "text";;
    parsedJson <- (match JSON_parse env jsonText with
                   | inl err => throw err
                   | inr v => ret v
                   end);;
    perform (SetAnalysisResult parsedJson)
  else
    throw (mkError "Invalid response structure from API.").

(** lines 70-242: the body of the outer [try]. *)
Definition analysis (fuel : nat) (env : Env) (file : File) : M unit :=
  imagePart <- fileToGenerativePart env file;;
  retry_loop fuel env (request env (payload imagePart));;
  read_result env.

(** line 245 *)
Definition failure_message (err : Error) : string :=
  "Failed to analyze image. " ++ message err ++ ". Please try again.".

(** lines 59-249, for a given amount of loop fuel. The handler closes over
    the [imageFile] of the state it was rendered with. *)
Definition handleAnalyze_fuel (fuel : nat) (env : Env) (st : State) : M unit :=
  match imageFile st with
  | None => perform (SetError "Please upload an image first.")
  | Some file =>
      perform (SetIsLoading true);;
      perform (SetError "");;
      perform (SetAnalysisResult VNull);;
      try_finally
        (try_catch
           (analysis fuel env file)
           (fun err =>
              perform (ConsoleError "Gemini API error:" err);;
              perform (SetError (failure_message err))))
        (perform (SetIsLoading false))
  end.

Definition handleAnalyze : Env -> State -> M unit :=
  handleAnalyze_fuel retry_fuel.

(** ** Render (lines 252-527), as far as it depends on the state *)

Inductive ButtonContent : Type := Spinner | Label (text : string).

Record View : Type := mkView {
  (** the [src] of the preview image, or the upload placeholder *)
  preview_img : option string;
  button_disabled : bool;
  button_content : ButtonContent;
  (** the red banner and its text *)
  error_banner : option string;
  (** the charts and the treatment cards, fed from this value *)
  dashboard : option value
}.

Definition render (st : State) : View :=
  {| preview_img :=
       if truthy (VStr (imagePreview st)) then Some (imagePreview st) else None;
     button_disabled :=
       isLoading st || match imageFile st with None => true | Some _ => false end;
     button_content := if isLoading st then Spinner else Label "Analyze Waste";
     error_banner :=
       if truthy (VStr (error st)) then Some (error st) else None;
     dashboard :=
       if truthy (analysisResult st) then Some (analysisResult st) else None |}.

(** ** Sequences of user actions *)

Inductive action : Type :=
| Upload (preview : string) (e : ChangeEvent)
| Analyze (env : Env).

Definition step (st : State) (a : action) : State :=
  match a with
  | Upload preview e => exec st (handleFileChange preview e)
  | Analyze env => exec st (handleAnalyze env st)
  end.

Definition after (actions : list action) : State :=
  fold_left step actions initial.

(** The states the page rests in: every handler call made so far has
    returned. *)
Inductive quiescent : State -> Prop :=
| quiescent_initial : quiescent initial
| quiescent_upload st preview e :
    quiescent st -> quiescent (exec st (handleFileChange preview e))
| quiescent_analyze st env :
    quiescent st -> returns (handleAnalyze env st) = true ->
    quiescent (exec st (handleAnalyze env st)).

(** ** Views of a trace *)

Definition is_fetch (e : effect) : bool :=
  match e with Fetch _ _ => true | _ => false end.

Definition fetch_count (t : list effect) : nat :=
  length (filter is_fetch t).

(** The timing of a run: attempts and the waits between them. *)
Inductive tick : Type := Attempt | Wait (ms : Z).

Fixpoint schedule (t : list effect) : list tick :=
  match t with
  | [] => []
  | Fetch _ _ :: t' => Attempt :: schedule t'
  | Sleep ms :: t' => Wait ms :: schedule t'
  | _ :: t' => schedule t'
  end.

(** What the retry loop does at most when it starts with [n] retries left
    and delay [d]: [n] requests, each followed by a wait twice as long as
    the one before. *)
Fixpoint backoff (init : RequestInit) (d : Z) (n : nat) : list effect :=
  match n with
  | O => []
  | S n' => Fetch apiUrl init :: Sleep d :: backoff init (d * 2) n'
  end.

(** [t] is an initial part of [l]. *)
Definition prefix_of {A} (t l : list A) : Prop := exists rest, (t ++ rest)%list = l.

(** ** Vocabulary of the properties *)

(** What [fileToGenerativePart] resolves with when the read succeeds. *)
Definition image_part (file : File) : value :=
  VObj [("inlineData",
         VObj [("data", match nth_error (split ","%char (readAsDataURL file)) 1 with
                        | Some s => VStr s
                        | None => VUndefined
                        end);
               ("mimeType", VStr (file_type file))])].

(** The same with the data spelled out: the base64 of the file's bytes. *)
Definition inline_part (file : File) : value :=
  VObj [("inlineData",
         VObj [("data", VStr (base64 (file_bytes file)));
               ("mimeType", VStr (file_type file))])].

(** The frame on entry of the retry loop (lines 196-198). *)
Definition loop_entry (fr : Frame) : Frame :=
  {| response := None; retries := 3; delay := 1000; fetches := fetches fr |}.

(** How a run of the body looks from outside: the requests and waits
    [net], then either the result is stored, or an error is thrown, or
    (only when the file cannot be read) nothing happens any more. *)
Inductive body_run (env : Env) (file : File)
  : list effect -> completion unit -> Prop :=
| body_stores net v :
    reader_loads env = true ->
    prefix_of (Fetch apiUrl (request env (payload (image_part file))) :: net)
      (backoff (request env (payload (image_part file))) 1000 3) ->
    body_run env file
      (Fetch apiUrl (request env (payload (image_part file))) :: net
       ++ [SetAnalysisResult v]) (Normal tt)
| body_throws net err :
    reader_loads env = true ->
    prefix_of (Fetch apiUrl (request env (payload (image_part file))) :: net)
      (backoff (request env (payload (image_part file))) 1000 3) ->
    body_run env file
      (Fetch apiUrl (request env (payload (image_part file))) :: net) (Throw err)
| body_hangs :
    reader_loads env = false ->
    body_run env file [] Never.

Definition is_network (e : effect) : bool :=
  match e with
  | Fetch _ _ | Sleep _ => true
  | _ => false
  end.

(** lines 65-67 *)
Definition prologue : list effect :=
  [SetIsLoading true; SetError ""; SetAnalysisResult VNull].

(** The [catch] of line 243 followed by the [finally]. *)
Definition failure_epilogue (err : Error) : list effect :=
  [ConsoleError "Gemini API error:" err; SetError (failure_message err);
   SetIsLoading false].

(** The three ways a call with an image can go. *)
Inductive analyze_run (env : Env) (file : File)
  : list effect -> completion unit -> Prop :=
| run_success net v :
    reader_loads env = true ->
    prefix_of (Fetch apiUrl (request env (payload (image_part file))) :: net)
      (backoff (request env (payload (image_part file))) 1000 3) ->
    analyze_run env file
      (prologue ++ (Fetch apiUrl (request env (payload (image_part file))) :: net)
       ++ [SetAnalysisResult v; SetIsLoading false]) (Normal tt)
| run_failure net err :
    reader_loads env = true ->
    prefix_of (Fetch apiUrl (request env (payload (image_part file))) :: net)
      (backoff (request env (payload (image_part file))) 1000 3) ->
    outcome (analysis retry_fuel env file) = Throw err ->
    analyze_run env file
      (prologue ++ (Fetch apiUrl (request env (payload (image_part file))) :: net)
       ++ failure_epilogue err) (Normal tt)
| run_pending :
    reader_loads env = false ->
    analyze_run env file prologue Never.

(** The shape [read_result] looks for: [candidates[0].content.parts[0].text]. *)
Definition answer_with (text : value) : value :=
  VObj [("candidates",
         VArr [VObj [("content",
                      VObj [("parts", VArr [VObj [("text", text)]])])]])].

(** Every [fetch] of the trace is made in a state where [isLoading] is
    true. *)
Fixpoint fetches_while_loading (st : State) (t : list effect) : bool :=
  match t with
  | [] => true
  | e :: t' =>
      (if is_fetch e then isLoading st else true)
      && fetches_while_loading (apply st e) t'
  end.

(** What every sequence of actions maintains: a result is only ever shown
    without an error, and only once an image was picked. *)
Definition consistent (st : State) : Prop :=
  (error st = "" \/ analysisResult st = VNull) /\
  (imageFile st = None -> analysisResult st = VNull).

(** The frame after [n] calls of [fetch]. *)
Definition after_fetches (n : nat) (resp : option Response) (k d : Z) : Frame :=
  {| response := resp; retries := k; delay := d; fetches := n |}.

(** Uploads can happen while an analysis awaits the network (the file
    input stays enabled): the setters of the two handlers then reach the
    state in some interleaving [m] of their traces [t] and [u]. *)
Inductive interleaving {A : Type} : list A -> list A -> list A -> Prop :=
| interleaving_nil : interleaving [] [] []
| interleaving_left a t u m :
    interleaving t u m -> interleaving (a :: t) u (a :: m)
| interleaving_right a t u m :
    interleaving t u m -> interleaving t (a :: u) (a :: m).

Definition upload_traces (uploads : list (string * ChangeEvent)) : list effect :=
  flat_map (fun '(preview, e) => trace (handleFileChange preview e)) uploads.

(** The only error a trace sets is the empty one; the only result, null. *)
Definition clears_error (e : effect) : bool :=
  match e with
  | SetError msg => String.eqb msg ""
  | _ => true
  end.

Definition clears_result (e : effect) : bool :=
  match e with
  | SetAnalysisResult VNull => true
  | SetAnalysisResult _ => false
  | _ => true
  end.

(** The values a trace gives to [isLoading], in order. *)
Fixpoint loading_flags (t : list effect) : list bool :=
  match t with
  | [] => []
  | SetIsLoading b :: t' => b :: loading_flags t'
  | _ :: t' => loading_flags t'
  end.

(** ** Sample inputs *)

Module Sample.

Definition png : File := mkFile "bottle.png" "image/png" [x4d; x61; x6e]%byte.

(** A well-formed answer of the API whose text is an empty object. *)
Definition answer : value := answer_with (VStr "{}").

Definition r200 : Response := mkResponse 200 "OK" (inr answer).
Definition r404 : Response := mkResponse 404 "Not Found" (inr VNull).
Definition r503 : Response := mkResponse 503 "Service Unavailable" (inr VNull).

Definition offline : FetchResult := Rejects (mkError "Failed to fetch").

(** A [JSON.parse] that knows one text. *)
Definition parse (v : value) : Error + value :=
  match v with
  | VStr "{}" => inr (VObj [])
  | _ => inl (mkError "Unexpected token")
  end.

(** The network answers with [answers] in order, then is offline. *)
Definition env_of (answers : list FetchResult) : Env :=
  {| reader_loads := true;
     network := fun n => nth n answers offline;
     JSON_parse := parse;
     Number_toString := fun _ => "0" |}.

Definition unreadable : Env :=
  {| reader_loads := false;
     network := fun _ => offline;
     JSON_parse := parse;
     Number_toString := fun _ => "0" |}.

(** The page after [png] was picked. *)
Definition picked : State :=
  exec initial (handleFileChange "blob:1" (mkChange [png])).

Definition loading : State :=
  {| imageFile := Some png; imagePreview := "blob:1"; analysisResult := VNull;
     isLoading := true; error := "" |}.

End Sample.

(** ** The dashboard (lines 356-524) *)

Definition is_nullish (v : value) : bool :=
  match v with
  | VUndefined | VNull => true
  | _ => false
  end.

(** [v.k] inside an expression: the value, or the TypeError. *)
Definition prop_of (v : value) (k : string) : Error + value :=
  match get v k with
  | Some w => inr w
  | None => inl (cannot_read (nullish_name v) k)
  end.

(** The callback of a [map] applied to the entries in order, with their
    index; the first throw ends it. *)
Fixpoint map_entries {B : Type} (f : nat -> value -> Error + B)
    (index : nat) (xs : list value) : Error + list B :=
  match xs with
  | [] => inr []
  | x :: rest =>
      match f index x with
      | inl err => inl err
      | inr b =>
          match map_entries f (S index) rest with
          | inl err => inl err
          | inr bs => inr (b :: bs)
          end
      end
  end.

(** [v.map(f)] for a value that came out of [JSON.parse]: only an array has
    a callable [map]. [what] is the source text of [v], for the message. *)
Definition array_map {B : Type} (what : string) (v : value)
    (f : nat -> value -> Error + B) : Error + list B :=
  match v with
  | VArr xs => map_entries f 0 xs
  | VUndefined | VNull => inl (cannot_read (nullish_name v) "map")
  | _ => inl (mkError (what ++ ".map is not a function"))
  end.

(** lines 383-385: a [<Cell>] of the pie. *)
Record Cell : Type := mkCell { cell_key : string; cell_fill : value }.

(** lines 399-408: a row of the legend under the pie. *)
Record LegendRow : Type := mkRow {
  row_key : value;
  row_color : value;
  row_name : value;
  row_value : value
}.

(** What the block of lines 356-524 hands to the charts and to the text
    nodes. *)
Record Dashboard : Type := mkDashboard {
  pie_data : value;
  pie_cells : list Cell;
  legend : list LegendRow;
  trends_data : value;
  rates_data : value;
  item_waste_type : value;
  item_home_treatment : value;
  item_industry_treatment : value
}.

(** The expressions of lines 356-524 in the order they are evaluated. *)
Definition render_dashboard (analysisResult : value) : Error + Dashboard :=
  match prop_of analysisResult "waste_composition" with
  | inl err => inl err
  | inr data =>
  match array_map "analysisResult.waste_composition" data
          (fun index entry =>
             match prop_of entry "color" with
             | inl err => inl err
             | inr fill =>
                 inr (mkCell ("cell-" ++ string_of_Z (Z.of_nat index)) fill)
             end) with
  | inl err => inl err
  | inr cells =>
  match array_map "analysisResult.waste_composition" data
          (fun _ item =>
             match prop_of item "name" with
             | inl err => inl err
             | inr key =>
             match prop_of item "color" with
             | inl err => inl err
             | inr color =>
             match prop_of item "name" with
             | inl err => inl err
             | inr name =>
             match prop_of item "value" with
             | inl err => inl err
             | inr v => inr (mkRow key color name v)
             end end end end) with
  | inl err => inl err
  | inr rows =>
  match prop_of analysisResult "disposal_trends" with
  | inl err => inl err
  | inr trends =>
  match prop_of analysisResult "recycling_rates" with
  | inl err => inl err
  | inr rates =>
  match prop_of analysisResult "waste_type" with
  | inl err => inl err
  | inr waste_type =>
  match prop_of analysisResult "home_treatment" with
  | inl err => inl err
  | inr home =>
  match prop_of analysisResult "industry_treatment" with
  | inl err => inl err
  | inr industry =>
      inr (mkDashboard data cells rows trends rates waste_type home industry)
  end end end end end end end end.

(** What [WasteAnalyzerPage] returns for a state, or the error it throws
    while building it. *)
Record Page : Type := mkPage {
  page_view : View;
  page_dashboard : option Dashboard
}.

Definition render_page (st : State) : Error + Page :=
  if truthy (analysisResult st) then
    match render_dashboard (analysisResult st) with
    | inl err => inl err
    | inr d => inr (mkPage (render st) (Some d))
    end
  else inr (mkPage (render st) None).

(** ** More vocabulary *)

(** The cells and the legend rows that the entries of [waste_composition]
    give, one per entry and in their order. An entry that is not an object
    gives [undefined] fields; only [null] makes the callback throw. *)
Fixpoint entry_cells (index : nat) (xs : list value) : list Cell :=
  match xs with
  | [] => []
  | x :: rest =>
      mkCell ("cell-" ++ string_of_Z (Z.of_nat index)) (get_opt x "color")
      :: entry_cells (S index) rest
  end.

Definition entry_rows (xs : list value) : list LegendRow :=
  map (fun x => mkRow (get_opt x "name") (get_opt x "color")
                      (get_opt x "name") (get_opt x "value")) xs.

Definition no_null_entry (xs : list value) : bool :=
  forallb (fun x => negb (is_nullish x)) xs.

(** The text that lines 234-236 look for, as one optional chain:
    [result.candidates?.[0]?.content?.parts?.[0]?.text]. *)
Definition answer_text (result : value) : value :=
  get_opt (get0_opt (get_opt (get_opt (get0_opt (get_opt result "candidates"))
                                      "content") "parts")) "text".

(** What reading response [r] comes to (lines 229-242): the value to
    store, or the error thrown. *)
Definition read_outcome (env : Env) (r : Response) : Error + value :=
  if negb (ok r)
  then inl (mkError ("Failed to analyze image after retries: " ++ statusText r))
  else
    match json r with
    | inl err => inl err
    | inr result =>
        if is_nullish result
        then inl (cannot_read (nullish_name result) "candidates")
        else if truthy (answer_text result)
        then JSON_parse env (answer_text result)
        else inl (mkError "Invalid response structure from API.")
    end.

(** A [fetch] that did not give an ok response. *)
Definition fails (x : FetchResult) : bool :=
  match x with
  | Rejects _ => true
  | Resolves r => negb (ok r)
  end.

(** The call returns with [err] reported: the message that line 244 builds
    from it is in [error] and in the banner, and no result is stored. *)
Definition reports (env : Env) (st : State) (err : Error) : Prop :=
  returns (handleAnalyze env st) = true /\
  error (exec st (handleAnalyze env st)) = failure_message err /\
  error_banner (render (exec st (handleAnalyze env st)))
    = Some (failure_message err) /\
  analysisResult (exec st (handleAnalyze env st)) = VNull.

(** The milliseconds a trace spends in [setTimeout]. *)
Fixpoint total_wait (t : list effect) : Z :=
  match t with
  | [] => 0
  | Sleep ms :: t' => ms + total_wait t'
  | _ :: t' => total_wait t'
  end.

(** The file and preview of the last upload that carried a file. *)
Fixpoint last_upload (actions : list action) (acc : option (File * string))
  : option (File * string) :=
  match actions with
  | [] => acc
  | Upload preview e :: rest =>
      last_upload rest
        (match nth_error (files e) 0 with
         | Some file => Some (file, preview)
         | None => acc
         end)
  | Analyze _ :: rest => last_upload rest acc
  end.

(** The page holds the file and the preview of [picked]. *)
Definition shows (st : State) (picked : option (File * string)) : Prop :=
  imageFile st = option_map fst picked /\
  imagePreview st = match picked with Some (_, preview) => preview | None => "" end.

Module Demo.

(** A result of the shape the schema asks for, with two categories. *)
Definition result : value :=
  VObj [("waste_type", VStr "Plastic Water Bottle");
        ("home_treatment", VStr "Rinse and recycle.");
        ("industry_treatment", VStr "Shredded and remelted.");
        ("waste_composition",
         VArr [VObj [("name", VStr "Plastic"); ("value", VNum 35%float);
                     ("color", VStr "#e78a53")];
               VObj [("name", VStr "Paper"); ("value", VNum 20%float);
                     ("color", VStr "#d97c3a")]]);
        ("disposal_trends", VArr []);
        ("recycling_rates", VArr [])].

Definition number (x : float) : string :=
  if PrimFloat.eqb x 35 then "35" else if PrimFloat.eqb x 20 then "20" else "0".

(** The JSON text of [result]. *)
Definition result_text : string :=
  match stringify number result with
  | Some text => text
  | None => ""
  end.

(** A [JSON.parse] that knows three texts. *)
Definition parse (v : value) : Error + value :=
  match v with
  | VStr text =>
      if String.eqb text "{}" then inr (VObj [])
      else if String.eqb text "null" then inr VNull
      else if String.eqb text result_text then inr result
      else inl (mkError "Unexpected token")
  | _ => inl (mkError "Unexpected token")
  end.

Definition env_of (answers : list FetchResult) : Env :=
  {| reader_loads := true;
     network := fun n => nth n answers Sample.offline;
     JSON_parse := parse;
     Number_toString := number |}.

Definition ok_with (text : string) : FetchResult :=
  Resolves (mkResponse 200 "OK" (inr (answer_with (VStr text)))).

Definition jpg : File := mkFile "can.jpg" "image/jpeg" [x4a; x50; x47]%byte.

End Demo.

(** * Properties *)

(** ** Sanity checks of the helpers *)

Example base64_Man : base64 [x4d; x61; x6e]%byte = "TWFu".
Proof. reflexivity. Qed.

Example base64_Ma : base64 [x4d; x61]%byte = "TWE=".
Proof. reflexivity. Qed.

Example base64_M : base64 [x4d]%byte = "TQ==".
Proof. reflexivity. Qed.

Example split_two : split ","%char "data:image/png;base64,TWFu" = ["data:image/png;base64"; "TWFu"].
Proof. reflexivity. Qed.

Example string_of_404 : string_of_Z 404 = "404".
Proof. reflexivity. Qed.

Example stringify_small :
  stringify (fun _ => "0")
    (VObj [("a", VArr [VStr "x"; VUndefined; VNull]); ("b", VUndefined); ("c", VBool true)])
  = Some (String "{"%char (quote "a" ++ ":[" ++ quote "x" ++ ",null,null]," ++ quote "c" ++ ":true}")).
Proof. reflexivity. Qed.

(** ** The data URL and its base64 part *)

Lemma occurs_append c s1 s2 :
  occurs c (s1 ++ s2) = occurs c s1 || occurs c s2.
Proof.
  induction s1 as [|a s1 IH]; simpl; [reflexivity|].
  rewrite IH. now rewrite orb_assoc.
Qed.

Lemma split_without c s : occurs c s = false -> split c s = [s].
Proof.
  induction s as [|a s IH]; simpl; [reflexivity|].
  intros H. apply orb_false_iff in H as [Ha Hs].
  rewrite Ha, (IH Hs). reflexivity.
Qed.

Lemma split_at_first c s1 s2 :
  occurs c s1 = false ->
  split c (s1 ++ String c s2) = s1 :: split c s2.
Proof.
  induction s1 as [|a s1 IH]; simpl; intros H.
  - now rewrite Ascii.eqb_refl.
  - apply orb_false_iff in H as [Ha Hs].
    rewrite Ha, (IH Hs). reflexivity.
Qed.

Lemma b64_digit_not_comma n : Ascii.eqb (b64_digit n) ","%char = false.
Proof.
  unfold b64_digit.
  destruct (nth_in_or_default (N.to_nat n) b64_alphabet "="%char) as [Hin | ->];
    [|reflexivity].
  revert Hin. generalize (nth (N.to_nat n) b64_alphabet "="%char). intros a Hin.
  assert (Hall : Forall (fun x => Ascii.eqb x ","%char = false) b64_alphabet)
    by (unfold b64_alphabet; simpl; repeat constructor).
  rewrite Forall_forall in Hall. now apply Hall.
Qed.

Lemma base64_without_comma bs : occurs ","%char (base64 bs) = false.
Proof.
  assert (H : forall n bs, (length bs <= n)%nat -> occurs ","%char (base64 bs) = false).
  { clear bs. induction n as [|n IH]; intros bs Hlen.
    - destruct bs; [reflexivity | simpl in Hlen; lia].
    - destruct bs as [|a [|b [|c rest]]]; [reflexivity| | |];
        cbn [base64 occurs]; rewrite ?b64_digit_not_comma; cbn [orb];
        try reflexivity.
      apply IH. simpl in Hlen. lia. }
  apply (H (length bs)). lia.
Qed.

Lemma append_cons_assoc s1 s2 s3 : s1 ++ s2 ++ s3 = (s1 ++ s2) ++ s3.
Proof.
  induction s1 as [|a s1 IH]; simpl; [reflexivity|]. now rewrite IH.
Qed.

(** [reader.result.split(",")[1]] is the base64 content when the media
    type holds no comma. *)
Lemma dataURL_payload file :
  occurs ","%char (file_type file) = false ->
  nth_error (split ","%char (readAsDataURL file)) 1 = Some (base64 (file_bytes file)).
Proof.
  intros Htype. unfold readAsDataURL.
  change (";base64," ++ base64 (file_bytes file))
    with (";base64" ++ String ","%char (base64 (file_bytes file))).
  rewrite (append_cons_assoc (file_type file)), (append_cons_assoc "data:").
  rewrite split_at_first.
  - rewrite split_without by apply base64_without_comma. reflexivity.
  - rewrite !occurs_append, Htype. reflexivity.
Qed.

Lemma image_part_inline file :
  occurs ","%char (file_type file) = false ->
  image_part file = inline_part file.
Proof.
  intros Htype. unfold image_part. now rewrite (dataURL_payload file Htype).
Qed.

Lemma fileToGenerativePart_cases env file fr :
  (reader_loads env = true /\
   fileToGenerativePart env file fr = ([], fr, Normal (image_part file))) \/
  (reader_loads env = false /\ fileToGenerativePart env file fr = ([], fr, Never)).
Proof.
  unfold fileToGenerativePart, bind, ret, never.
  destruct (reader_loads env); [left | right]; split; eauto.
Qed.

(** ** The retry loop *)

(** One turn of the loop, case by case. A response that is neither ok nor
    retryable throws inside the [try], so the [catch] of the same turn
    receives it. *)
Lemma attempt_cases env init fr :
  let stay resp := {| response := resp; retries := retries fr;
                      delay := delay fr; fetches := S (fetches fr) |} in
  let next resp := {| response := resp; retries := retries fr - 1;
                      delay := delay fr * 2; fetches := S (fetches fr) |} in
  attempt env init fr =
  match network env (fetches fr) with
  | Rejects err =>
      if retries fr =? 1
      then ([Fetch apiUrl init], stay (response fr), Throw err)
      else ([Fetch apiUrl init; Sleep (delay fr)], next (response fr), Normal tt)
  | Resolves r =>
      if ok r then ([Fetch apiUrl init], stay (Some r), Break)
      else if retryable r
      then ([Fetch apiUrl init; Sleep (delay fr)], next (Some r), Normal tt)
      else if retries fr =? 1
      then ([Fetch apiUrl init], stay (Some r), Throw (api_error r))
      else ([Fetch apiUrl init; Sleep (delay fr)], next (Some r), Normal tt)
  end.
Proof.
  unfold attempt, try_catch, bind, fetch, set_response, double_delay,
    decr_retries, set_delay, set_retries, sleep, perform, read, assign,
    break, throw, api_error.
  destruct fr as [resp n d k]; cbn [response retries delay fetches].
  destruct (network env k) as [err | r]; cbn.
  - destruct (n =? 1); reflexivity.
  - destruct (ok r); [reflexivity|].
    destruct (retryable r); [reflexivity|]. cbn.
    destruct (n =? 1); reflexivity.
Qed.

Lemma retrying_true fr : retrying fr = true -> 0 < retries fr.
Proof. unfold retrying. rewrite Z.gtb_ltb. apply Z.ltb_lt. Qed.

Lemma retrying_false fr : retrying fr = false -> retries fr <= 0.
Proof. unfold retrying. rewrite Z.gtb_ltb. apply Z.ltb_ge. Qed.

Lemma prefix_of_nil {A} (l : list A) : prefix_of [] l.
Proof. now exists l. Qed.

Lemma prefix_of_refl {A} (l : list A) : prefix_of l l.
Proof. exists []. apply app_nil_r. Qed.

Lemma prefix_of_cons {A} (a : A) t l : prefix_of t l -> prefix_of (a :: t) (a :: l).
Proof. intros [rest <-]. now exists rest. Qed.

#[local] Hint Resolve prefix_of_nil prefix_of_refl prefix_of_cons : core.

(** The two ways a turn of the loop can come out in [H]: it is the last
    one, or the rest of the loop follows. *)
Ltac loop_ends H :=
  injection H as <- <- <-; repeat split; eauto.

Ltac loop_goes_on H Hnext :=
  match type of H with
  | context [while ?fuel ?cond ?body ?fr] =>
      let t1 := fresh "t" in
      let fr1 := fresh "fr" in
      let c1 := fresh "c" in
      let H1 := fresh "Hrest" in
      destruct (while fuel cond body fr) as [[t1 fr1] c1] eqn:H1;
      injection H as <- <- <-;
      destruct (Hnext _ _ _ _ H1) as [? ?];
      repeat split; cbn; eauto
  end.

(** The loop with [n] retries left: it ends, by leaving the loop or by a
    throw, what it did is an initial part of the backoff schedule, and it
    begins with a request when there is a retry left. *)
Lemma while_attempt_spec env init :
  forall fuel fr t fr' c,
    0 <= retries fr <= Z.of_nat fuel ->
    while fuel retrying (attempt env init) fr = (t, fr', c) ->
    prefix_of t (backoff init (delay fr) (Z.to_nat (retries fr))) /\
    (c = Normal tt \/ exists err, c = Throw err) /\
    (0 < retries fr -> exists t', t = Fetch apiUrl init :: t').
Proof.
  induction fuel as [|fuel IH]; intros fr t fr' c Hn Hrun; cbn [while] in Hrun.
  - destruct (retrying fr) eqn:Hpos;
      [apply retrying_true in Hpos; lia|].
    apply retrying_false in Hpos.
    injection Hrun as <- <- <-. repeat split; auto. lia.
  - destruct (retrying fr) eqn:Hpos.
    2: { apply retrying_false in Hpos.
         injection Hrun as <- <- <-. repeat split; auto. lia. }
    apply retrying_true in Hpos.
    assert (Hk : Z.to_nat (retries fr) = S (Z.to_nat (retries fr - 1))) by lia.
    rewrite Hk. cbn [backoff].
    rewrite attempt_cases in Hrun. cbv zeta in Hrun.
    assert (Hnext : forall resp t1 fr1 c1,
      while fuel retrying (attempt env init)
        {| response := resp; retries := retries fr - 1;
           delay := delay fr * 2; fetches := S (fetches fr) |} = (t1, fr1, c1) ->
      prefix_of t1 (backoff init (delay fr * 2) (Z.to_nat (retries fr - 1))) /\
      (c1 = Normal tt \/ exists err, c1 = Throw err)).
    { intros resp t1 fr1 c1 H1.
      apply IH in H1; [|cbn [retries]; lia].
      destruct H1 as (Hp & Hc & _). now split. }
    destruct (network env (fetches fr)) as [err | r];
      repeat match type of Hrun with
             | context [if ?b then _ else _] => destruct b
             end;
      first [loop_ends Hrun | loop_goes_on Hrun Hnext].
Qed.

Lemma while_unfold fuel cond body fr :
  while (S fuel) cond body fr =
  if cond fr then
    match body fr with
    | (t, fr', Normal _) =>
        let '(t', fr'', c) := while fuel cond body fr' in
        ((t ++ t')%list, fr'', c)
    | (t, fr', Break) => (t, fr', Normal tt)
    | (t, fr', Throw err) => (t, fr', Throw err)
    | (t, fr', Never) => (t, fr', Never)
    end
  else ([], fr, Normal tt).
Proof. reflexivity. Qed.

(** More fuel than retries left changes nothing. *)
Lemma while_attempt_fuel env init :
  forall fuel fr,
    0 <= retries fr <= Z.of_nat fuel ->
    while (S fuel) retrying (attempt env init) fr
    = while fuel retrying (attempt env init) fr.
Proof.
  induction fuel as [|fuel IH]; intros fr Hn.
  - cbn [while].
    destruct (retrying fr) eqn:Hpos; [|reflexivity].
    apply retrying_true in Hpos. lia.
  - rewrite (while_unfold (S fuel)), (while_unfold fuel).
    destruct (retrying fr) eqn:Hpos; [|reflexivity].
    apply retrying_true in Hpos.
    rewrite attempt_cases. cbv zeta.
    destruct (network env (fetches fr)) as [err | r];
      repeat match goal with
             | |- context [if ?b then _ else _] => destruct b
             end;
      try reflexivity;
      rewrite IH by (cbn; lia); reflexivity.
Qed.

Lemma retry_loop_unfold fuel env init fr :
  retry_loop fuel env init fr
  = while fuel retrying (attempt env init) (loop_entry fr).
Proof.
  unfold retry_loop, bind, set_response, set_retries, set_delay, assign.
  cbn [response retries delay fetches]. fold (loop_entry fr).
  destruct (while fuel retrying (attempt env init) (loop_entry fr)) as [[t fr'] c].
  reflexivity.
Qed.

Lemma retry_loop_fuel fuel env init fr :
  (3 <= fuel)%nat ->
  retry_loop fuel env init fr = retry_loop retry_fuel env init fr.
Proof.
  intros Hfuel. rewrite !retry_loop_unfold. unfold retry_fuel.
  induction Hfuel as [|fuel Hfuel IH]; [reflexivity|].
  rewrite while_attempt_fuel; [exact IH|].
  cbn [loop_entry retries]. lia.
Qed.

Lemma retry_loop_spec fuel env init fr t fr' c :
  (3 <= fuel)%nat ->
  retry_loop fuel env init fr = (t, fr', c) ->
  prefix_of t (backoff init 1000 3) /\
  (c = Normal tt \/ exists err, c = Throw err) /\
  exists t', t = Fetch apiUrl init :: t'.
Proof.
  intros Hfuel Hrun. rewrite retry_loop_unfold in Hrun.
  apply while_attempt_spec in Hrun; [|cbn [loop_entry retries]; lia].
  destruct Hrun as (Hp & Hc & Hfirst). repeat split; auto.
  apply Hfirst. cbn. lia.
Qed.

(** ** After the loop *)

(** Reading the response performs at most one effect, the one that stores
    the parsed result, and otherwise throws. *)
Lemma read_result_cases env fr :
  (exists v, read_result env fr = ([SetAnalysisResult v], fr, Normal tt)) \/
  (exists err, read_result env fr = ([], fr, Throw err)).
Proof.
  unfold read_result, bind, read, member, member0, ret, throw, perform.
  destruct (response fr) as [r|]; cbn; [|eauto].
  destruct (ok r); cbn; [|eauto].
  destruct (json r) as [err | result]; cbn; [eauto|].
  destruct (get result "candidates") as [candidates|]; cbn; [|eauto].
  destruct (truthy (get0_opt candidates)); cbn; [|eauto].
  destruct (get (get0_opt candidates) "content") as [content|]; cbn; [|eauto].
  destruct (truthy _); cbn; [|eauto].
  destruct (get content "parts") as [parts|]; cbn; [|eauto].
  destruct (get0 parts) as [part0|]; cbn; [|eauto].
  destruct (get part0 "text") as [jsonText|]; cbn; [|eauto].
  destruct (JSON_parse env jsonText) as [err | parsed]; cbn; eauto.
Qed.

(** ** The body of the outer [try] *)

Lemma analysis_run fuel env file fr :
  (3 <= fuel)%nat ->
  exists t fr' c,
    analysis fuel env file fr = (t, fr', c) /\ body_run env file t c.
Proof.
  intros Hfuel. unfold analysis, bind.
  destruct (fileToGenerativePart_cases env file fr)
    as [[Hload ->] | [Hload ->]].
  2: { do 3 eexists. split; [reflexivity|]. now constructor. }
  destruct (retry_loop fuel env (request env (payload (image_part file))) fr)
    as [[net fr1] c1] eqn:Hloop.
  destruct (retry_loop_spec fuel _ _ _ _ _ _ Hfuel Hloop)
    as (Hnet & [-> | [err ->]] & [net' ->]).
  - destruct (read_result_cases env fr1) as [[v ->] | [err ->]];
      do 3 eexists; (split; [reflexivity|]); cbn [app].
    + now apply body_stores.
    + rewrite app_nil_r. now apply body_throws.
  - do 3 eexists. split; [reflexivity|]. cbn [app].
    now apply body_throws.
Qed.

Lemma analysis_fuel fuel env file fr :
  (3 <= fuel)%nat ->
  analysis fuel env file fr = analysis retry_fuel env file fr.
Proof.
  intros Hfuel. unfold analysis, bind.
  destruct (fileToGenerativePart env file fr) as [[t fr'] [part| | |]];
    try reflexivity.
  now rewrite (retry_loop_fuel fuel _ _ _ Hfuel).
Qed.

(** ** Traces *)

Lemma run_app st t1 t2 : run st (t1 ++ t2) = run (run st t1) t2.
Proof. apply fold_left_app. Qed.

Lemma run_network st t : forallb is_network t = true -> run st t = st.
Proof.
  revert st. induction t as [|e t IH]; intros st H; [reflexivity|].
  cbn in H. apply andb_true_iff in H as [He Ht].
  destruct e; try discriminate He; exact (IH st Ht).
Qed.

Lemma backoff_network init d n : forallb is_network (backoff init d n) = true.
Proof. revert d. induction n as [|n IH]; intros d; cbn; auto. Qed.

Lemma prefix_of_network (t l : list effect) :
  prefix_of t l -> forallb is_network l = true -> forallb is_network t = true.
Proof.
  intros [rest <-]. rewrite forallb_app. intros H.
  now apply andb_true_iff in H.
Qed.

Lemma schedule_app t1 t2 : schedule (t1 ++ t2) = (schedule t1 ++ schedule t2)%list.
Proof.
  induction t1 as [|e t1 IH]; [reflexivity|].
  destruct e; cbn; now rewrite ?IH.
Qed.

Lemma fetch_count_app t1 t2 :
  fetch_count (t1 ++ t2) = (fetch_count t1 + fetch_count t2)%nat.
Proof. unfold fetch_count. now rewrite filter_app, length_app. Qed.

Lemma fetch_count_prefix t l : prefix_of t l -> (fetch_count t <= fetch_count l)%nat.
Proof. intros [rest <-]. rewrite fetch_count_app. lia. Qed.

Lemma schedule_prefix t l : prefix_of t l -> prefix_of (schedule t) (schedule l).
Proof. intros [rest <-]. rewrite schedule_app. now exists (schedule rest). Qed.

Lemma fetch_count_backoff init d n : fetch_count (backoff init d n) = n.
Proof.
  revert d. induction n as [|n IH]; intros d; [reflexivity|].
  cbn [backoff]. unfold fetch_count in *. cbn. now rewrite IH.
Qed.

(** The waits of the schedule double: the one after the (k+1)-th request
    is [d * 2^k]. *)
Lemma schedule_backoff init d n :
  schedule (backoff init d n)
  = flat_map (fun k => [Attempt; Wait (d * 2 ^ Z.of_nat k)]) (seq 0 n).
Proof.
  assert (Hpow : forall d k, d * 2 ^ Z.of_nat (S k) = d * 2 * 2 ^ Z.of_nat k).
  { intros d' k. rewrite Nat2Z.inj_succ, Z.pow_succ_r by lia. lia. }
  assert (H : forall n d k,
    flat_map (fun i => [Attempt; Wait (d * 2 ^ Z.of_nat i)]) (seq (S k) n)
    = flat_map (fun i => [Attempt; Wait (d * 2 * 2 ^ Z.of_nat i)]) (seq k n)).
  { clear - Hpow. induction n as [|n IH]; intros d k; [reflexivity|].
    cbn [seq flat_map]. now rewrite IH, Hpow. }
  revert d. induction n as [|n IH]; intros d; [reflexivity|].
  cbn [backoff schedule seq flat_map]. rewrite IH, H.
  change (Z.of_nat 0) with 0. now rewrite Z.pow_0_r, Z.mul_1_r.
Qed.

(** ** Runs of [handleAnalyze] *)

(** The handler wraps the body: prologue, body, and the epilogue that
    matches how the body ended. *)
Lemma handleAnalyze_call fuel env st file :
  imageFile st = Some file ->
  call (handleAnalyze_fuel fuel env st) =
  match analysis fuel env file frame0 with
  | (t, _, Normal _) => ((prologue ++ t ++ [SetIsLoading false])%list, Normal tt)
  | (t, _, Throw err) => ((prologue ++ t ++ failure_epilogue err)%list, Normal tt)
  | (t, _, Break) => ((prologue ++ t ++ [SetIsLoading false])%list, Break)
  | (t, _, Never) => ((prologue ++ t)%list, Never)
  end.
Proof.
  intros Hfile. unfold call, handleAnalyze_fuel. rewrite Hfile.
  unfold try_finally, try_catch, bind, perform. cbn.
  destruct (analysis fuel env file frame0) as [[t fr] [[] | err | |]];
    cbn; rewrite <- ?app_assoc; reflexivity.
Qed.

Lemma handleAnalyze_run env st file :
  imageFile st = Some file ->
  analyze_run env file (trace (handleAnalyze env st)) (outcome (handleAnalyze env st)).
Proof.
  intros Hfile. unfold trace, outcome at 1, handleAnalyze.
  rewrite (handleAnalyze_call retry_fuel env st file Hfile).
  destruct (analysis_run retry_fuel env file frame0 (le_n 3))
    as (t & fr & c & Hrun & Hbody).
  assert (Hout : outcome (analysis retry_fuel env file) = c)
    by (unfold outcome, call; now rewrite Hrun).
  rewrite Hrun.
  destruct Hbody as [net v Hload Hnet | net err Hload Hnet | Hload]; cbn [fst snd].
  - change (Fetch apiUrl (request env (payload (image_part file))) :: net
            ++ [SetAnalysisResult v])
      with ((Fetch apiUrl (request env (payload (image_part file))) :: net)
            ++ [SetAnalysisResult v])%list.
    rewrite <- app_assoc. now apply run_success.
  - now apply run_failure.
  - now apply run_pending.
Qed.

Lemma run_around_network st init net tail :
  prefix_of net (backoff init 1000 3) ->
  run st (prologue ++ net ++ tail) = run (run st prologue) tail.
Proof.
  intros Hnet. rewrite !run_app. f_equal. apply run_network.
  exact (prefix_of_network _ _ Hnet (backoff_network _ _ _)).
Qed.

(** The state after each kind of run. *)
Lemma analyze_run_state env file t c st :
  analyze_run env file t c ->
  imageFile (run st t) = imageFile st /\
  imagePreview (run st t) = imagePreview st /\
  match c with
  | Never =>
      isLoading (run st t) = true /\ error (run st t) = "" /\
      analysisResult (run st t) = VNull
  | _ =>
      isLoading (run st t) = false /\
      (error (run st t) = "" \/
       (analysisResult (run st t) = VNull /\
        exists err, outcome (analysis retry_fuel env file) = Throw err /\
                    error (run st t) = failure_message err))
  end.
Proof.
  intros [net v Hload Hnet | net err Hload Hnet Hout | Hload].
  - rewrite (run_around_network st _ _ _ Hnet). cbn. auto.
  - rewrite (run_around_network st _ _ _ Hnet). cbn.
    repeat split; auto. right. split; auto. now exists err.
  - cbn. auto.
Qed.

(** ** The guard, the button, the upload *)

Lemma handleAnalyze_guard env st :
  imageFile st = None ->
  call (handleAnalyze env st)
  = ([SetError "Please upload an image first."], Normal tt).
Proof.
  intros Hnone. unfold call, handleAnalyze, handleAnalyze_fuel.
  now rewrite Hnone.
Qed.

(** C10: called while [imageFile] is null, [handleAnalyze] sets the error
    to exactly "Please upload an image first." and returns at once: that
    setter is its only effect, so no request is made, and [isLoading],
    [analysisResult], [imageFile] and [imagePreview] keep their values. *)
Theorem handleAnalyze_without_image env st :
  imageFile st = None ->
  call (handleAnalyze env st)
    = ([SetError "Please upload an image first."], Normal tt) /\
  fetch_count (trace (handleAnalyze env st)) = 0%nat /\
  exec st (handleAnalyze env st)
    = {| imageFile := imageFile st; imagePreview := imagePreview st;
         analysisResult := analysisResult st; isLoading := isLoading st;
         error := "Please upload an image first." |}.
Proof.
  destruct st as [file preview result loading err]; cbn [imageFile].
  intros ->. repeat split; reflexivity.
Qed.

Lemma handleAnalyze_without_image_witness :
  imageFile initial = None /\
  exec initial (handleAnalyze (Sample.env_of []) initial)
    = {| imageFile := None; imagePreview := ""; analysisResult := VNull;
         isLoading := false; error := "Please upload an image first." |}.
Proof.
  split; [reflexivity|].
  apply (handleAnalyze_without_image (Sample.env_of []) initial). reflexivity.
Defined.

(** C7: in every state the Analyze button is rendered disabled when no
    image has been uploaded ([imageFile] is null) and when an analysis is
    in progress ([isLoading] is true). *)
Theorem analyze_button_disabled st :
  (imageFile st = None -> button_disabled (render st) = true) /\
  (isLoading st = true -> button_disabled (render st) = true).
Proof.
  unfold render; cbn. split; intros ->; auto using orb_true_r.
Qed.

Lemma analyze_button_disabled_witness :
  button_disabled (render initial) = true /\
  button_disabled (render Sample.loading) = true.
Proof.
  split.
  - apply (proj1 (analyze_button_disabled initial)). reflexivity.
  - apply (proj2 (analyze_button_disabled Sample.loading)). reflexivity.
Defined.

(** The button is enabled exactly when there is an image and nothing is
    loading. *)
Lemma analyze_button_enabled st :
  button_disabled (render st) = false <->
  isLoading st = false /\ exists file, imageFile st = Some file.
Proof.
  unfold render; cbn. rewrite orb_false_iff.
  destruct (imageFile st) as [file|]; split.
  - intros [H _]. eauto.
  - intros [H _]. auto.
  - intros [_ H]. discriminate.
  - intros [_ [file H]]. discriminate.
Qed.

(** C6: when [handleFileChange] receives a file, [imageFile] and
    [imagePreview] are replaced by the new file and its object URL,
    [analysisResult] is cleared to null and [error] to the empty string;
    [isLoading], the only other state, keeps its value. The handler
    returns and touches nothing else (no request). *)
Theorem handleFileChange_new_file preview file others st :
  let e := mkChange (file :: others) in
  exec st (handleFileChange preview e)
    = {| imageFile := Some file; imagePreview := preview;
         analysisResult := VNull; isLoading := isLoading st; error := "" |} /\
  outcome (handleFileChange preview e) = Normal tt /\
  fetch_count (trace (handleFileChange preview e)) = 0%nat.
Proof. repeat split; reflexivity. Qed.

(** A change event without a file (the picker was cancelled) changes
    nothing. *)
Lemma handleFileChange_no_file preview st :
  exec st (handleFileChange preview (mkChange [])) = st.
Proof. reflexivity. Qed.

(** ** Bounded retries and backoff *)

Lemma fetch_count_run env file t c :
  analyze_run env file t c -> (fetch_count t <= 3)%nat.
Proof.
  intros [net v Hload Hnet | net err Hload Hnet Hout | Hload];
    rewrite ?fetch_count_app; try (cbn; lia);
    apply fetch_count_prefix in Hnet; rewrite fetch_count_backoff in Hnet;
    change (fetch_count prologue) with 0%nat;
    [change (fetch_count [SetAnalysisResult v; SetIsLoading false]) with 0%nat
    |change (fetch_count (failure_epilogue err)) with 0%nat]; lia.
Qed.

Lemma handleAnalyze_fuel_enough fuel env st :
  (3 <= fuel)%nat ->
  call (handleAnalyze_fuel fuel env st) = call (handleAnalyze env st).
Proof.
  intros Hfuel. unfold handleAnalyze.
  destruct (imageFile st) as [file|] eqn:Hfile.
  - rewrite !(handleAnalyze_call _ env st file Hfile).
    now rewrite (analysis_fuel fuel env file frame0 Hfuel).
  - unfold handleAnalyze_fuel. now rewrite Hfile.
Qed.

(** C2: in every invocation the retry loop terminates (it never runs out
    of fuel, and any fuel of at least 3 gives the same run) and makes at
    most 3 [fetch] calls, whatever the network does: every outcome of every
    attempt is covered by the quantification over [env]. *)
Theorem retry_loop_bounded fuel env st :
  (3 <= fuel)%nat ->
  (forall init fr,
     snd (retry_loop fuel env init fr) <> Never /\
     (fetch_count (fst (fst (retry_loop fuel env init fr))) <= 3)%nat /\
     retry_loop fuel env init fr = retry_loop retry_fuel env init fr) /\
  call (handleAnalyze_fuel fuel env st) = call (handleAnalyze env st) /\
  (fetch_count (trace (handleAnalyze env st)) <= 3)%nat.
Proof.
  intros Hfuel. split; [|split].
  - intros init fr.
    destruct (retry_loop fuel env init fr) as [[t fr'] c] eqn:Hrun.
    destruct (retry_loop_spec fuel _ _ _ _ _ _ Hfuel Hrun) as (Hp & Hc & _).
    cbn [fst snd]. repeat split.
    + destruct Hc as [-> | [err ->]]; discriminate.
    + apply fetch_count_prefix in Hp. now rewrite fetch_count_backoff in Hp.
    + rewrite <- Hrun. now apply retry_loop_fuel.
  - now apply handleAnalyze_fuel_enough.
  - destruct (imageFile st) as [file|] eqn:Hfile.
    + exact (fetch_count_run _ _ _ _ (handleAnalyze_run env st file Hfile)).
    + unfold trace, call, handleAnalyze, handleAnalyze_fuel. rewrite Hfile.
      cbn. lia.
Qed.

Lemma retry_loop_bounded_witness :
  (3 <= 7)%nat /\
  call (handleAnalyze_fuel 7 (Sample.env_of []) Sample.picked)
    = call (handleAnalyze (Sample.env_of []) Sample.picked) /\
  (fetch_count (trace (handleAnalyze (Sample.env_of []) Sample.picked)) <= 3)%nat.
Proof.
  split; [lia|].
  apply (retry_loop_bounded 7 (Sample.env_of []) Sample.picked). lia.
Defined.

(** With the network down, or with a server that keeps failing, all three
    attempts are made. *)
Example three_attempts_offline :
  fetch_count (trace (handleAnalyze (Sample.env_of []) Sample.picked)) = 3%nat.
Proof. reflexivity. Qed.

Example three_attempts_unavailable :
  schedule (trace (handleAnalyze
    (Sample.env_of [Resolves Sample.r503; Resolves Sample.r503; Resolves Sample.r503])
    Sample.picked))
  = [Attempt; Wait 1000; Attempt; Wait 2000; Attempt; Wait 4000].
Proof. reflexivity. Qed.

Lemma schedule_run env file t c :
  analyze_run env file t c ->
  prefix_of (schedule t)
    [Attempt; Wait 1000; Attempt; Wait 2000; Attempt; Wait 4000] /\
  (reader_loads env = true -> exists rest, schedule t = Attempt :: rest).
Proof.
  intros [net v Hload Hnet | net err Hload Hnet Hout | Hload].
  - rewrite !schedule_app. cbn [prologue schedule app].
    rewrite app_nil_r. split; [|eauto].
    exact (schedule_prefix _ _ Hnet).
  - rewrite !schedule_app. cbn [prologue failure_epilogue schedule app].
    rewrite app_nil_r. split; [|eauto].
    exact (schedule_prefix _ _ Hnet).
  - cbn. split; [auto | congruence].
Qed.

(** ** Loading flag *)

Lemma fetches_while_loading_app st t1 t2 :
  fetches_while_loading st (t1 ++ t2)
  = fetches_while_loading st t1 && fetches_while_loading (run st t1) t2.
Proof.
  revert st. induction t1 as [|e t1 IH]; intros st; [reflexivity|].
  cbn. now rewrite IH, andb_assoc.
Qed.

Lemma fetches_while_loading_network st t :
  isLoading st = true -> forallb is_network t = true ->
  fetches_while_loading st t = true.
Proof.
  revert st. induction t as [|e t IH]; intros st Hst H; [reflexivity|].
  cbn in H. apply andb_true_iff in H as [He Ht].
  destruct e; try discriminate He; cbn; rewrite ?Hst; now apply IH.
Qed.

Lemma fetches_while_loading_run env file t c st :
  analyze_run env file t c -> fetches_while_loading st t = true.
Proof.
  intros [net v Hload Hnet | net err Hload Hnet Hout | Hload];
    [| |reflexivity];
    pose proof (prefix_of_network _ _ Hnet (backoff_network _ _ _)) as Hq;
    rewrite !fetches_while_loading_app, (run_network _ _ Hq);
    rewrite (fetches_while_loading_network (run st prologue) _ eq_refl Hq);
    reflexivity.
Qed.

Lemma last_effect_run env file t :
  analyze_run env file t (Normal tt) ->
  exists t', t = (t' ++ [SetIsLoading false])%list.
Proof.
  intros H. inversion H as [net v Hload Hnet | net err Hload Hnet Hout | Hload];
    subst.
  - exists (prologue ++ (Fetch apiUrl (request env (payload (image_part file))) :: net)
            ++ [SetAnalysisResult v])%list.
    now rewrite <- !app_assoc.
  - exists (prologue ++ (Fetch apiUrl (request env (payload (image_part file))) :: net)
            ++ [ConsoleError "Gemini API error:" err;
                SetError (failure_message err)])%list.
    now rewrite <- !app_assoc.
Qed.

Lemma returns_run env file t c :
  analyze_run env file t c ->
  (reader_loads env = true -> c = Normal tt) /\
  (c = Normal tt \/ c = Never).
Proof.
  intros [net v Hload Hnet | net err Hload Hnet Hout | Hload]; split; auto.
  congruence.
Qed.

(** The calls that do return: an invocation that passes the image guard
    sets [isLoading] to true first, so every request is made while it is
    true; when it returns, after a success or after any failure, its last
    effect sets [isLoading] to false; and it returns whenever the file can
    be read, whatever the network and the parsers do. [quiescent] takes in
    only calls that have returned: the call that stays pending is not
    covered here. *)
Theorem isLoading_bracket :
  (forall env st file,
     imageFile st = Some file ->
     (exists t, trace (handleAnalyze env st) = SetIsLoading true :: t) /\
     fetches_while_loading st (trace (handleAnalyze env st)) = true /\
     (returns (handleAnalyze env st) = true ->
      (exists t, trace (handleAnalyze env st) = (t ++ [SetIsLoading false])%list) /\
      isLoading (exec st (handleAnalyze env st)) = false) /\
     (reader_loads env = true -> returns (handleAnalyze env st) = true)) /\
  (forall st, quiescent st -> isLoading st = false).
Proof.
  assert (Hcall : forall env st file,
    imageFile st = Some file ->
    (exists t, trace (handleAnalyze env st) = SetIsLoading true :: t) /\
    fetches_while_loading st (trace (handleAnalyze env st)) = true /\
    (returns (handleAnalyze env st) = true ->
     (exists t, trace (handleAnalyze env st) = (t ++ [SetIsLoading false])%list) /\
     isLoading (exec st (handleAnalyze env st)) = false) /\
    (reader_loads env = true -> returns (handleAnalyze env st) = true)).
  { intros env st file Hfile.
    pose proof (handleAnalyze_run env st file Hfile) as Hrun.
    unfold returns, exec.
    repeat split.
    - destruct Hrun; eexists; reflexivity.
    - exact (fetches_while_loading_run _ _ _ _ st Hrun).
    - destruct (outcome (handleAnalyze env st)) as [[]| | |]; try discriminate.
      exact (last_effect_run _ _ _ Hrun).
    - pose proof (analyze_run_state _ _ _ _ st Hrun) as (_ & _ & Hst).
      destruct (outcome (handleAnalyze env st)); try discriminate; apply Hst.
    - intros Hload. now rewrite (proj1 (returns_run _ _ _ _ Hrun) Hload). }
  split; [exact Hcall|].
  intros st Hq. induction Hq as [|st preview e Hq IH|st env Hq IH Hret].
  - reflexivity.
  - destruct e as [[|file others]]; [exact IH|].
    unfold exec, trace, call, handleFileChange; cbn. exact IH.
  - destruct (imageFile st) as [file|] eqn:Hfile.
    + exact (proj2 (proj1 (proj2 (proj2 (Hcall env st file Hfile))) Hret)).
    + unfold exec, trace. rewrite (handleAnalyze_guard env st Hfile). exact IH.
Qed.

Lemma isLoading_bracket_witness :
  imageFile Sample.picked = Some Sample.png /\
  isLoading (exec Sample.picked
               (handleAnalyze (Sample.env_of [Resolves Sample.r200]) Sample.picked))
  = false.
Proof.
  split; [reflexivity|].
  apply (proj1 isLoading_bracket (Sample.env_of [Resolves Sample.r200])
           Sample.picked Sample.png); reflexivity.
Defined.

(** When the file cannot be read the promise of [fileToGenerativePart] is
    never settled: the call stays pending with [isLoading] set. *)
Example unreadable_file_pending :
  call (handleAnalyze Sample.unreadable Sample.picked) = (prologue, Never) /\
  isLoading (exec Sample.picked (handleAnalyze Sample.unreadable Sample.picked)) = true.
Proof. split; reflexivity. Qed.

(** ** Error and result *)

Lemma consistent_initial : consistent initial.
Proof. split; auto. Qed.

Lemma consistent_step st a : consistent st -> consistent (step st a).
Proof.
  intros [Hone Himg]. destruct a as [preview [[|file others]] | env];
    cbn [step].
  - now split.
  - split; cbn; [auto | discriminate].
  - destruct (imageFile st) as [file|] eqn:Hfile.
    + pose proof (handleAnalyze_run env st file Hfile) as Hrun.
      destruct (analyze_run_state _ _ _ _ st Hrun) as (Hf & _ & Hst).
      unfold exec. split.
      * destruct (outcome (handleAnalyze env st));
          [destruct Hst as [_ [H | [H _]]]; auto
          |destruct Hst as [_ [H | [H _]]]; auto
          |destruct Hst as [_ [H | [H _]]]; auto
          |destruct Hst as (_ & H & _); auto].
      * rewrite Hf, Hfile. discriminate.
    + unfold exec, trace. rewrite (handleAnalyze_guard env st Hfile).
      cbn. split; [right|]; auto.
Qed.

Lemma consistent_after_from actions :
  forall st, consistent st -> consistent (fold_left step actions st).
Proof.
  induction actions as [|a actions IH]; intros st Hst; [exact Hst|].
  cbn [fold_left]. apply IH. now apply consistent_step.
Qed.

(** C9: after any sequence of uploads and analyses from the initial state
    the error and the result are never both set: when [error] is a
    non-empty string, [analysisResult] is null; so the page never renders
    the error banner and the dashboard together. *)
Theorem never_error_and_result actions :
  (error (after actions) <> "" -> analysisResult (after actions) = VNull) /\
  (error_banner (render (after actions)) = None \/
   dashboard (render (after actions)) = None).
Proof.
  destruct (consistent_after_from actions initial consistent_initial)
    as [[Herr | Hres] _]; fold (after actions) in *.
  - split; [congruence|]. left. unfold render; cbn. now rewrite Herr.
  - split; [auto|]. right. unfold render; cbn. now rewrite Hres.
Qed.

Lemma never_error_and_result_witness :
  let actions := [Upload "blob:1" (mkChange [Sample.png]);
                  Analyze (Sample.env_of [Resolves Sample.r200]);
                  Analyze (Sample.env_of [])] in
  error (after actions) <> "" /\ analysisResult (after actions) = VNull.
Proof.
  cbv zeta. split; [intros H; vm_compute in H; discriminate H|].
  apply (proj1 (never_error_and_result
                  [Upload "blob:1" (mkChange [Sample.png]);
                   Analyze (Sample.env_of [Resolves Sample.r200]);
                   Analyze (Sample.env_of [])])).
  intros H; vm_compute in H; discriminate H.
Defined.

(** ** Failures *)

Lemma handleAnalyze_failure env st file err :
  imageFile st = Some file ->
  outcome (analysis retry_fuel env file) = Throw err ->
  exists net,
    prefix_of net (backoff (request env (payload (image_part file))) 1000 3) /\
    call (handleAnalyze env st)
    = ((prologue ++ net ++ failure_epilogue err)%list, Normal tt).
Proof.
  intros Hfile Hthrow. unfold handleAnalyze.
  rewrite (handleAnalyze_call retry_fuel env st file Hfile).
  unfold outcome, call in Hthrow.
  destruct (analysis_run retry_fuel env file frame0 (le_n 3))
    as (t & fr & c & Hrun & Hbody).
  rewrite Hrun in Hthrow |- *. cbn [snd] in Hthrow. subst c.
  inversion Hbody as [| net err' Hload Hnet Ht Hc |]; subst.
  eexists. split; [exact Hnet | reflexivity].
Qed.

(** *** The kinds of failure *)

Lemma analysis_unfold fuel env file fr :
  reader_loads env = true ->
  analysis fuel env file fr
  = bind (retry_loop fuel env (request env (payload (image_part file))))
         (fun _ => read_result env) fr.
Proof.
  intros Hload. unfold analysis, bind.
  destruct (fileToGenerativePart_cases env file fr) as [[_ ->] | [H _]];
    [|congruence].
  destruct (retry_loop fuel env (request env (payload (image_part file))) fr)
    as [[t fr'] [[]| | |]]; try reflexivity.
  destruct (read_result env fr') as [[t' fr''] c']. reflexivity.
Qed.

#[local] Arguments while : simpl never.
#[local] Arguments attempt : simpl never.

(** One turn of the loop, by [while_unfold] and [attempt_cases]. *)
Ltac turn := rewrite while_unfold, attempt_cases; cbn.

(** The network is down at all three attempts: the last rejection is what
    the loop throws. *)
Lemma retry_loop_rejected env init fr e0 e1 e2 :
  network env (fetches fr) = Rejects e0 ->
  network env (S (fetches fr)) = Rejects e1 ->
  network env (S (S (fetches fr))) = Rejects e2 ->
  retry_loop retry_fuel env init fr
  = ([Fetch apiUrl init; Sleep 1000; Fetch apiUrl init; Sleep 2000;
      Fetch apiUrl init],
     after_fetches (S (S (S (fetches fr)))) None 1 4000, Throw e2).
Proof.
  intros H0 H1 H2. rewrite retry_loop_unfold. unfold retry_fuel, loop_entry.
  turn. rewrite H0.
  turn. rewrite H1.
  turn. rewrite H2.
  reflexivity.
Qed.

(** Three retryable statuses: the loop ends with the last response and
    no retries left, after a third wait. *)
Lemma retry_loop_exhausted env init fr r0 r1 r2 :
  network env (fetches fr) = Resolves r0 -> ok r0 = false -> retryable r0 = true ->
  network env (S (fetches fr)) = Resolves r1 -> ok r1 = false -> retryable r1 = true ->
  network env (S (S (fetches fr))) = Resolves r2 -> ok r2 = false -> retryable r2 = true ->
  retry_loop retry_fuel env init fr
  = ([Fetch apiUrl init; Sleep 1000; Fetch apiUrl init; Sleep 2000;
      Fetch apiUrl init; Sleep 4000],
     after_fetches (S (S (S (fetches fr)))) (Some r2) 0 8000, Normal tt).
Proof.
  intros H0 Hk0 Hr0 H1 Hk1 Hr1 H2 Hk2 Hr2.
  rewrite retry_loop_unfold. unfold retry_fuel, loop_entry.
  turn. rewrite H0, Hk0, Hr0.
  turn. rewrite H1, Hk1, Hr1.
  turn. rewrite H2, Hk2, Hr2.
  reflexivity.
Qed.

(** An ok response ends the loop at once. *)
Lemma retry_loop_ok env init fr r :
  network env (fetches fr) = Resolves r -> ok r = true ->
  retry_loop retry_fuel env init fr
  = ([Fetch apiUrl init], after_fetches (S (fetches fr)) (Some r) 3 1000, Normal tt).
Proof.
  intros H0 Hk0. rewrite retry_loop_unfold. unfold retry_fuel, loop_entry.
  turn. rewrite H0, Hk0. reflexivity.
Qed.

(** A response that is neither ok nor retryable on the first attempt: the
    loop waits and sends the request again. *)
Lemma retry_loop_client_error env init fr r :
  network env (fetches fr) = Resolves r -> ok r = false -> retryable r = false ->
  exists t fr' c,
    retry_loop retry_fuel env init fr
    = (Fetch apiUrl init :: Sleep 1000 :: Fetch apiUrl init :: t, fr', c).
Proof.
  intros H0 Hk0 Hr0. rewrite retry_loop_unfold. unfold retry_fuel, loop_entry.
  turn. rewrite H0, Hk0, Hr0.
  destruct (while 2 retrying (attempt env init) _) as [[t fr'] c] eqn:Hrest.
  apply while_attempt_spec in Hrest; [|cbn; lia].
  destruct Hrest as (_ & _ & Hfirst).
  destruct Hfirst as [t' ->]; [cbn; lia|].
  now exists t', fr', c.
Qed.

(** The network is down at every attempt. *)
Lemma analysis_network_failure env file e0 e1 e2 :
  reader_loads env = true ->
  network env 0 = Rejects e0 -> network env 1 = Rejects e1 ->
  network env 2 = Rejects e2 ->
  outcome (analysis retry_fuel env file) = Throw e2.
Proof.
  intros Hload H0 H1 H2. unfold outcome, call.
  rewrite (analysis_unfold _ _ _ _ Hload). unfold bind.
  now rewrite (retry_loop_rejected env _ frame0 e0 e1 e2 H0 H1 H2).
Qed.

(** The server keeps answering with a retryable status. *)
Lemma analysis_status_failure env file r0 r1 r2 :
  reader_loads env = true ->
  network env 0 = Resolves r0 -> ok r0 = false -> retryable r0 = true ->
  network env 1 = Resolves r1 -> ok r1 = false -> retryable r1 = true ->
  network env 2 = Resolves r2 -> ok r2 = false -> retryable r2 = true ->
  outcome (analysis retry_fuel env file)
  = Throw (mkError ("Failed to analyze image after retries: " ++ statusText r2)).
Proof.
  intros Hload H0 Hk0 Hr0 H1 Hk1 Hr1 H2 Hk2 Hr2. unfold outcome, call.
  rewrite (analysis_unfold _ _ _ _ Hload). unfold bind.
  rewrite (retry_loop_exhausted env _ frame0 r0 r1 r2 H0 Hk0 Hr0 H1 Hk1 Hr1 H2 Hk2 Hr2).
  unfold read_result, bind, read, after_fetches. cbn. now rewrite Hk2.
Qed.

(** The body of an ok response is not JSON. *)
Lemma analysis_body_failure env file r err :
  reader_loads env = true ->
  network env 0 = Resolves r -> ok r = true -> json r = inl err ->
  outcome (analysis retry_fuel env file) = Throw err.
Proof.
  intros Hload H0 Hk0 Hjson. unfold outcome, call.
  rewrite (analysis_unfold _ _ _ _ Hload). unfold bind.
  rewrite (retry_loop_ok env _ frame0 r H0 Hk0).
  unfold read_result, bind, read, after_fetches. cbn. now rewrite Hk0, Hjson.
Qed.

(** The answer has no usable candidate. *)
Lemma analysis_invalid_structure env file r v candidates :
  reader_loads env = true ->
  network env 0 = Resolves r -> ok r = true -> json r = inr v ->
  get v "candidates" = Some candidates -> truthy (get0_opt candidates) = false ->
  outcome (analysis retry_fuel env file)
  = Throw (mkError "Invalid response structure from API.").
Proof.
  intros Hload H0 Hk0 Hjson Hcand Hfalsy. unfold outcome, call.
  rewrite (analysis_unfold _ _ _ _ Hload). unfold bind.
  rewrite (retry_loop_ok env _ frame0 r H0 Hk0).
  unfold read_result, bind, read, member, after_fetches. cbn.
  rewrite Hk0, Hjson. cbn. rewrite Hcand. cbn. now rewrite Hfalsy.
Qed.

(** The text of the answer does not parse. *)
Lemma analysis_parse_failure env file r text err :
  reader_loads env = true ->
  network env 0 = Resolves r -> ok r = true ->
  json r = inr (answer_with text) -> truthy text = true ->
  JSON_parse env text = inl err ->
  outcome (analysis retry_fuel env file) = Throw err.
Proof.
  intros Hload H0 Hk0 Hjson Htext Hparse. unfold outcome, call.
  rewrite (analysis_unfold _ _ _ _ Hload). unfold bind.
  rewrite (retry_loop_ok env _ frame0 r H0 Hk0).
  unfold read_result, bind, read, member, member0, after_fetches. cbn.
  rewrite Hk0, Hjson. cbn. rewrite Htext. cbn. now rewrite Hparse.
Qed.

(** The good case: the parsed text becomes the analysis result. *)
Lemma handleAnalyze_success env st file r text v :
  imageFile st = Some file -> reader_loads env = true ->
  network env 0 = Resolves r -> ok r = true ->
  json r = inr (answer_with text) -> truthy text = true ->
  JSON_parse env text = inr v ->
  call (handleAnalyze env st)
  = ((prologue ++ [Fetch apiUrl (request env (payload (image_part file)));
                   SetAnalysisResult v; SetIsLoading false])%list, Normal tt) /\
  analysisResult (exec st (handleAnalyze env st)) = v /\
  error (exec st (handleAnalyze env st)) = "".
Proof.
  intros Hfile Hload H0 Hk0 Hjson Htext Hparse.
  assert (Hcall : call (handleAnalyze env st)
    = ((prologue ++ [Fetch apiUrl (request env (payload (image_part file)));
                     SetAnalysisResult v; SetIsLoading false])%list, Normal tt)).
  { unfold handleAnalyze. rewrite (handleAnalyze_call _ _ _ _ Hfile).
    rewrite (analysis_unfold _ _ _ _ Hload). unfold bind.
    rewrite (retry_loop_ok env _ frame0 r H0 Hk0).
    unfold read_result, bind, read, member, member0, after_fetches. cbn.
    rewrite Hk0, Hjson. cbn. rewrite Htext. cbn. now rewrite Hparse. }
  split; [exact Hcall|]. unfold exec, trace. rewrite Hcall. split; reflexivity.
Qed.

(** ** Which responses are retried *)

(** C1 (what the code does instead): a response whose status is neither
    ok nor 429 nor at least 500, received on the first attempt, does not
    end the call: the [throw] of line 219 is caught by the [catch] of
    line 221 of the same turn, which waits 1000 ms and lets the loop send
    the request again. *)
Theorem client_error_is_retried env st file r :
  imageFile st = Some file -> reader_loads env = true ->
  network env 0 = Resolves r -> ok r = false -> retryable r = false ->
  exists rest,
    trace (handleAnalyze env st)
    = (prologue
       ++ [Fetch apiUrl (request env (payload (image_part file)));
           Sleep 1000;
           Fetch apiUrl (request env (payload (image_part file)))]
       ++ rest)%list.
Proof.
  intros Hfile Hload H0 Hk0 Hr0. unfold trace, handleAnalyze.
  rewrite (handleAnalyze_call _ _ _ _ Hfile).
  rewrite (analysis_unfold _ _ _ _ Hload). unfold bind.
  destruct (retry_loop_client_error env
              (request env (payload (image_part file))) frame0 r H0 Hk0 Hr0)
    as (t & fr' & c & ->).
  destruct c as [[]| err | |].
  - destruct (read_result env fr') as [[t' fr''] [[]| err | |]];
      eexists; cbn [fst app prologue]; rewrite <- ?app_assoc; reflexivity.
  - eexists; cbn [fst app prologue]; reflexivity.
  - eexists; cbn [fst app prologue]; reflexivity.
  - eexists; cbn [fst app prologue]; reflexivity.
Qed.

Lemma client_error_is_retried_witness :
  ok Sample.r404 = false /\ retryable Sample.r404 = false /\
  exists rest,
    trace (handleAnalyze (Sample.env_of [Resolves Sample.r404; Resolves Sample.r200])
             Sample.picked)
    = (prologue
       ++ [Fetch apiUrl (request (Sample.env_of [Resolves Sample.r404; Resolves Sample.r200])
                           (payload (image_part Sample.png)));
           Sleep 1000;
           Fetch apiUrl (request (Sample.env_of [Resolves Sample.r404; Resolves Sample.r200])
                           (payload (image_part Sample.png)))]
       ++ rest)%list.
Proof.
  split; [reflexivity|]. split; [reflexivity|].
  apply (client_error_is_retried
           (Sample.env_of [Resolves Sample.r404; Resolves Sample.r200])
           Sample.picked Sample.png Sample.r404); reflexivity.
Defined.

(** A 404 followed by a 200: the call succeeds on the second attempt. *)
Example not_found_then_ok :
  let env := Sample.env_of [Resolves Sample.r404; Resolves Sample.r200] in
  schedule (trace (handleAnalyze env Sample.picked)) = [Attempt; Wait 1000; Attempt] /\
  exec Sample.picked (handleAnalyze env Sample.picked)
  = {| imageFile := Some Sample.png; imagePreview := "blob:1";
       analysisResult := VObj []; isLoading := false; error := "" |}.
Proof. split; reflexivity. Qed.

(** Three 404s: only the third one is reported. *)
Example not_found_three_times :
  let env := Sample.env_of [Resolves Sample.r404; Resolves Sample.r404;
                            Resolves Sample.r404] in
  schedule (trace (handleAnalyze env Sample.picked))
    = [Attempt; Wait 1000; Attempt; Wait 2000; Attempt] /\
  error (exec Sample.picked (handleAnalyze env Sample.picked))
    = "Failed to analyze image. APIError: 404 Not Found. Please try again.".
Proof. split; reflexivity. Qed.

(** A client error is terminal only on the last attempt, like a network
    failure. *)
Lemma attempt_last_client_error env init fr r :
  retries fr = 1 ->
  network env (fetches fr) = Resolves r -> ok r = false -> retryable r = false ->
  snd (attempt env init fr) = Throw (api_error r).
Proof.
  intros Hn H0 Hk0 Hr0. rewrite attempt_cases. cbv zeta.
  now rewrite H0, Hk0, Hr0, Hn.
Qed.

(** ** The request *)

Lemma In_backoff url init' init d n :
  In (Fetch url init') (backoff init d n) -> url = apiUrl /\ init' = init.
Proof.
  revert d. induction n as [|n IH]; intros d; cbn [backoff In]; [tauto|].
  intros [H | [H | H]]; [injection H as <- <-; auto | discriminate | eauto].
Qed.

Lemma In_fetch_run env file t c url init :
  analyze_run env file t c -> In (Fetch url init) t ->
  url = apiUrl /\ init = request env (payload (image_part file)).
Proof.
  intros Hrun Hin.
  assert (Hnet : forall net tail,
    prefix_of net (backoff (request env (payload (image_part file))) 1000 3) ->
    (forall u i, ~ In (Fetch u i) tail) ->
    In (Fetch url init) (prologue ++ net ++ tail) ->
    url = apiUrl /\ init = request env (payload (image_part file))).
  { intros net tail [rest Hp] Htail H.
    apply in_app_or in H as [H | H].
    - cbn in H. repeat destruct H as [H | H]; try discriminate; contradiction.
    - apply in_app_or in H as [H | H]; [|now apply Htail in H].
      apply (In_backoff url init _ 1000 3). rewrite <- Hp.
      apply in_or_app. now left. }
  destruct Hrun as [net v Hload Hp | net err Hload Hp Hout | Hload].
  - apply (Hnet _ _ Hp) in Hin; [exact Hin|].
    intros u i H. cbn in H. repeat destruct H as [H | H]; try discriminate; contradiction.
  - apply (Hnet _ _ Hp) in Hin; [exact Hin|].
    intros u i H. cbn in H. repeat destruct H as [H | H]; try discriminate; contradiction.
  - cbn in Hin. repeat destruct Hin as [Hin | Hin]; try discriminate; contradiction.
Qed.

Lemma first_fetch_run env file t c :
  analyze_run env file t c -> reader_loads env = true ->
  In (Fetch apiUrl (request env (payload (image_part file)))) t.
Proof.
  intros [net v Hload Hp | net err Hload Hp Hout | Hload] H; [| |congruence];
    apply in_or_app; right; apply in_or_app; left; now left.
Qed.

(** C5: every request [handleAnalyze] sends is a POST to the one fixed
    endpoint URL; its body is the JSON text of a payload whose second
    content part is the inline data (the base64 of the file's bytes and its
    MIME type) and whose [generationConfig] carries the fixed response
    schema; the schema's [required] lists exactly the seven fields, which
    are also its seven properties. The MIME type is assumed to hold no
    comma (a media type does not). *)
Theorem request_is_fixed env st file :
  imageFile st = Some file ->
  occurs ","%char (file_type file) = false ->
  let part := inline_part file in
  let req := request env (payload part) in
  (forall url init,
     In (Fetch url init) (trace (handleAnalyze env st)) ->
     url = apiUrl /\ init = req) /\
  (reader_loads env = true -> In (Fetch apiUrl req) (trace (handleAnalyze env st))) /\
  apiUrl = "https://generativelanguage.googleapis.com/v1beta/models/gemini-2.5-flash-preview-09-2025:generateContent?key=" /\
  method req = "POST" /\
  headers req = [("Content-Type", "application/json")] /\
  body req = stringify (Number_toString env) (payload part) /\
  (exists text, body req = Some text) /\
  get_opt (get0_opt (get_opt (payload part) "contents")) "parts"
    = VArr [VObj [("text", VStr userQuery)]; part] /\
  part = VObj [("inlineData",
                VObj [("data", VStr (base64 (file_bytes file)));
                      ("mimeType", VStr (file_type file))])] /\
  get_opt (get_opt (get_opt (payload part) "generationConfig") "responseSchema")
          "required"
    = VArr (map VStr ["waste_type"; "home_treatment"; "industry_treatment";
                      "stats"; "waste_composition"; "disposal_trends";
                      "recycling_rates"]) /\
  match get_opt schema "properties" with
  | VObj fields => map fst fields
  | _ => []
  end = ["waste_type"; "home_treatment"; "industry_treatment"; "stats";
         "waste_composition"; "disposal_trends"; "recycling_rates"].
Proof.
  intros Hfile Htype part req.
  pose proof (handleAnalyze_run env st file Hfile) as Hrun.
  unfold req, part. rewrite <- (image_part_inline file Htype).
  split; [|split].
  - intros url init. exact (In_fetch_run _ _ _ _ url init Hrun).
  - exact (first_fetch_run _ _ _ _ Hrun).
  - rewrite (image_part_inline file Htype).
    repeat split; try reflexivity.
    eexists. reflexivity.
Qed.

Lemma request_is_fixed_witness :
  imageFile Sample.picked = Some Sample.png /\
  occurs ","%char (file_type Sample.png) = false /\
  In (Fetch apiUrl (request (Sample.env_of []) (payload (inline_part Sample.png))))
     (trace (handleAnalyze (Sample.env_of []) Sample.picked)).
Proof.
  split; [reflexivity|]. split; [reflexivity|].
  apply (proj1 (proj2 (request_is_fixed (Sample.env_of []) Sample.picked Sample.png
                         eq_refl eq_refl))).
  reflexivity.
Defined.

(** The inline data of the sample file, as it is sent. *)
Example sample_inline_data :
  stringify (fun _ => "0") (inline_part Sample.png)
  = Some (String "{"%char
            (quote "inlineData" ++ ":{" ++ quote "data" ++ ":" ++ quote "TWFu" ++ ","
             ++ quote "mimeType" ++ ":" ++ quote "image/png" ++ "}}")).
Proof. reflexivity. Qed.

(** A media type with a comma would make [split] cut the data URL too
    early. *)
Example comma_in_type :
  image_part (mkFile "x" "a,b" [x4d; x61; x6e]%byte)
  = VObj [("inlineData",
           VObj [("data", VStr "b;base64"); ("mimeType", VStr "a,b")])].
Proof. reflexivity. Qed.

(** ** Uploads during an analysis *)

Lemma interleaving_In_left {A} (t u m : list A) a :
  interleaving t u m -> In a t -> In a m.
Proof.
  induction 1 as [|b t u m H IH|b t u m H IH]; cbn; intros Hin; auto.
  destruct Hin; auto.
Qed.

Lemma interleaving_forallb {A} (P : A -> bool) (t u m : list A) :
  interleaving t u m ->
  forallb P t = true -> forallb P u = true -> forallb P m = true.
Proof.
  induction 1 as [|b t u m H IH|b t u m H IH]; cbn; intros Ht Hu; auto.
  - apply andb_true_iff in Ht as [Hb Ht]. rewrite Hb. now apply IH.
  - apply andb_true_iff in Hu as [Hb Hu]. rewrite Hb. now apply IH.
Qed.

Lemma interleaving_loading_flags (t u m : list effect) :
  interleaving t u m -> loading_flags u = [] -> loading_flags m = loading_flags t.
Proof.
  induction 1 as [|b t u m H IH|b t u m H IH]; intros Hu; [reflexivity| |].
  - destruct b; cbn; rewrite ?IH; auto.
  - destruct b; cbn in *; try discriminate; auto.
Qed.

Lemma run_clears_error m :
  forallb clears_error m = true ->
  forall st, error st = "" \/ In (SetError "") m -> error (run st m) = "".
Proof.
  induction m as [|e m IH]; cbn [forallb run fold_left]; intros Hm st Hst.
  - destruct Hst as [H | []]. exact H.
  - apply andb_true_iff in Hm as [He Hm]. apply (IH Hm).
    destruct e; cbn in *; try (destruct Hst as [H | [H | H]]; auto; discriminate).
    left. now apply String.eqb_eq.
Qed.

Lemma run_clears_result m :
  forallb clears_result m = true ->
  forall st, analysisResult st = VNull \/ In (SetAnalysisResult VNull) m ->
             analysisResult (run st m) = VNull.
Proof.
  induction m as [|e m IH]; cbn [forallb run fold_left]; intros Hm st Hst.
  - destruct Hst as [H | []]. exact H.
  - apply andb_true_iff in Hm as [He Hm]. apply (IH Hm).
    destruct e; cbn in *; try (destruct Hst as [H | [H | H]]; auto; discriminate).
    left. destruct v; try discriminate. reflexivity.
Qed.

Lemma last_cons {A} (l : list A) :
  forall a d, last (a :: l) d = last l a.
Proof.
  induction l as [|b l IH]; intros a d; [reflexivity|].
  change (last (a :: b :: l) d) with (last (b :: l) d).
  now rewrite (IH b d), (IH b a).
Qed.

Lemma run_loading_flags m :
  forall st, isLoading (run st m) = last (loading_flags m) (isLoading st).
Proof.
  induction m as [|e m IH]; intros st; [reflexivity|].
  cbn [run fold_left]. fold (run (apply st e) m). rewrite IH.
  destruct e; try reflexivity.
  cbn [loading_flags apply isLoading]. now rewrite last_cons.
Qed.

Lemma network_clears t :
  forallb is_network t = true ->
  forallb clears_error t = true /\ forallb clears_result t = true /\
  loading_flags t = [].
Proof.
  induction t as [|e t IH]; cbn; intros H; [auto|].
  apply andb_true_iff in H as [He Ht]. destruct (IH Ht) as (H1 & H2 & H3).
  destruct e; try discriminate He; cbn; auto.
Qed.

Lemma upload_traces_clear uploads :
  forallb clears_error (upload_traces uploads) = true /\
  forallb clears_result (upload_traces uploads) = true /\
  loading_flags (upload_traces uploads) = [].
Proof.
  induction uploads as [|[preview [[|file others]]] uploads IH]; cbn; auto.
Qed.

Lemma analyze_run_clears env file t c :
  analyze_run env file t c ->
  In (SetError "") t /\ In (SetAnalysisResult VNull) t /\
  (forallb clears_error t = true \/ forallb clears_result t = true) /\
  (c = Normal tt -> loading_flags t = [true; false]).
Proof.
  assert (Hloading : forall t1 t2, loading_flags (t1 ++ t2)
                                   = (loading_flags t1 ++ loading_flags t2)%list).
  { induction t1 as [|e t1 IH]; intros t2; [reflexivity|].
    destruct e; cbn; now rewrite ?IH. }
  intros [net v Hload Hnet | net err Hload Hnet Hout | Hload];
    (split; [cbn; auto|]); (split; [cbn; auto|]).
  - destruct (network_clears _ (prefix_of_network _ _ Hnet (backoff_network _ _ _)))
      as (H1 & _ & H3).
    split; [left|intros _].
    + rewrite !forallb_app, H1. reflexivity.
    + rewrite !Hloading, H3. reflexivity.
  - destruct (network_clears _ (prefix_of_network _ _ Hnet (backoff_network _ _ _)))
      as (_ & H2 & H3).
    split; [right|intros _].
    + rewrite !forallb_app, H2. reflexivity.
    + rewrite !Hloading, H3. reflexivity.
  - split; [left; reflexivity | discriminate].
Qed.

(** X12: however uploads fall between the steps of an analysis, the page
    ends without an error or without a result, and with [isLoading] reset
    once the analysis has returned. *)
Lemma uploads_during_analysis env st file uploads m :
  imageFile st = Some file ->
  interleaving (trace (handleAnalyze env st)) (upload_traces uploads) m ->
  (error (run st m) = "" \/ analysisResult (run st m) = VNull) /\
  (returns (handleAnalyze env st) = true -> isLoading (run st m) = false).
Proof.
  intros Hfile Hm.
  pose proof (handleAnalyze_run env st file Hfile) as Hrun.
  destruct (analyze_run_clears _ _ _ _ Hrun) as (Herr & Hres & Hclears & Hflags).
  destruct (upload_traces_clear uploads) as (Hu1 & Hu2 & Hu3).
  split.
  - destruct Hclears as [Hc | Hc]; [left | right].
    + apply run_clears_error.
      * exact (interleaving_forallb _ _ _ _ Hm Hc Hu1).
      * right. exact (interleaving_In_left _ _ _ _ Hm Herr).
    + apply run_clears_result.
      * exact (interleaving_forallb _ _ _ _ Hm Hc Hu2).
      * right. exact (interleaving_In_left _ _ _ _ Hm Hres).
  - unfold returns. intros Hret.
    rewrite run_loading_flags, (interleaving_loading_flags _ _ _ Hm Hu3).
    rewrite Hflags; [reflexivity|].
    destruct (outcome (handleAnalyze env st)) as [[]| | |];
      try discriminate; reflexivity.
Qed.

(** * Further properties *)

(** ** Reading the response *)

Lemma truthy_not_nullish v : truthy v = true -> is_nullish v = false.
Proof. destruct v; try discriminate; reflexivity. Qed.

Lemma get_not_nullish v k : is_nullish v = false -> get v k = Some (get_opt v k).
Proof. destruct v; try discriminate; reflexivity. Qed.

Lemma get0_not_nullish v : is_nullish v = false -> get0 v = Some (get0_opt v).
Proof.
  destruct v as [| | | | s | |]; try discriminate; try reflexivity.
  destruct s; reflexivity.
Qed.

(** The guarded reads of lines 236-237 come to the single optional chain
    [answer_text]: once the guard has passed, the unguarded chain of line
    237 finds the same text and cannot throw. *)
Lemma read_result_outcome env fr r :
  response fr = Some r ->
  read_result env fr =
  match read_outcome env r with
  | inl err => ([], fr, Throw err)
  | inr parsed => ([SetAnalysisResult parsed], fr, Normal tt)
  end.
Proof.
  intros Hresp. unfold read_result, read_outcome, bind, read, ret, throw, perform.
  rewrite Hresp. cbn.
  destruct (ok r); cbn; [|reflexivity].
  destruct (json r) as [err | result]; cbn; [reflexivity|].
  unfold member at 1.
  destruct (is_nullish result) eqn:Hnull.
  { destruct result; try discriminate; reflexivity. }
  rewrite (get_not_nullish _ _ Hnull). cbn.
  unfold answer_text.
  set (candidate := get0_opt (get_opt result "candidates")).
  destruct (truthy candidate) eqn:Hcand; cbn.
  2: { assert (H : truthy (get_opt (get0_opt (get_opt (get_opt candidate "content")
                                    "parts")) "text") = false).
       { destruct candidate as [| | b | x | s | |]; try discriminate; reflexivity. }
       now rewrite H. }
  unfold member, member0.
  rewrite (get_not_nullish _ _ (truthy_not_nullish _ Hcand)). cbn.
  set (content := get_opt candidate "content").
  destruct (truthy (get_opt (get0_opt (get_opt content "parts")) "text")) eqn:Htext;
    cbn; [|reflexivity].
  assert (Hcontent : is_nullish content = false).
  { destruct content; try reflexivity; discriminate Htext. }
  rewrite (get_not_nullish _ _ Hcontent). cbn.
  set (parts := get_opt content "parts") in *.
  assert (Hparts : is_nullish parts = false).
  { destruct parts; try reflexivity; discriminate Htext. }
  rewrite (get0_not_nullish _ Hparts). cbn.
  set (part0 := get0_opt parts) in *.
  assert (Hpart0 : is_nullish part0 = false).
  { destruct part0; try reflexivity; discriminate Htext. }
  rewrite (get_not_nullish _ _ Hpart0). cbn.
  destruct (JSON_parse env (get_opt part0 "text")); reflexivity.
Qed.

(** ** Turns of the loop, one after the other *)

(** A failed attempt that is not the last: wait, double, go on. *)
Lemma while_failure_step env init fuel fr :
  fails (network env (fetches fr)) = true -> 1 < retries fr ->
  exists resp,
    while (S fuel) retrying (attempt env init) fr =
    let '(t, fr', c) :=
      while fuel retrying (attempt env init)
        {| response := resp; retries := retries fr - 1;
           delay := delay fr * 2; fetches := S (fetches fr) |} in
    (Fetch apiUrl init :: Sleep (delay fr) :: t, fr', c).
Proof.
  intros Hfail Hn. rewrite while_unfold, attempt_cases. cbv zeta.
  assert (Hpos : retrying fr = true)
    by (unfold retrying; rewrite Z.gtb_ltb; apply Z.ltb_lt; lia).
  assert (Hne : (retries fr =? 1) = false) by (apply Z.eqb_neq; lia).
  rewrite Hpos, Hne.
  destruct (network env (fetches fr)) as [err | r]; cbn in Hfail.
  - exists (response fr).
    destruct (while fuel retrying _ _) as [[t fr'] c]. reflexivity.
  - apply negb_true_iff in Hfail. rewrite Hfail.
    exists (Some r).
    destruct (retryable r);
      destruct (while fuel retrying _ _) as [[t fr'] c]; reflexivity.
Qed.

(** An ok response ends the loop in the turn it arrives. *)
Lemma while_ok_step env init fuel fr r :
  network env (fetches fr) = Resolves r -> ok r = true -> 0 < retries fr ->
  while (S fuel) retrying (attempt env init) fr
  = ([Fetch apiUrl init],
     {| response := Some r; retries := retries fr; delay := delay fr;
        fetches := S (fetches fr) |}, Normal tt).
Proof.
  intros H0 Hok Hn. rewrite while_unfold, attempt_cases. cbv zeta.
  assert (Hpos : retrying fr = true)
    by (unfold retrying; rewrite Z.gtb_ltb; apply Z.ltb_lt; lia).
  now rewrite Hpos, H0, Hok.
Qed.

(** The ok response that comes after [k] failed attempts, [k] below 3, is
    the response the loop leaves behind. *)
Lemma retry_loop_first_ok env init fr k r :
  (k < 3)%nat ->
  (forall i, (i < k)%nat -> fails (network env (fetches fr + i)) = true) ->
  network env (fetches fr + k) = Resolves r -> ok r = true ->
  exists fr',
    retry_loop retry_fuel env init fr
    = ((backoff init 1000 k ++ [Fetch apiUrl init])%list, fr', Normal tt) /\
    response fr' = Some r.
Proof.
  intros Hk Hfails Hr Hok. rewrite retry_loop_unfold. unfold retry_fuel.
  destruct k as [|[|[|k]]]; [| | |lia].
  - rewrite Nat.add_0_r in Hr.
    rewrite (while_ok_step env init 2 (loop_entry fr) r Hr Hok ltac:(cbn; lia)).
    eexists. split; reflexivity.
  - pose proof (Hfails 0%nat ltac:(lia)) as H0. rewrite Nat.add_0_r in H0.
    rewrite Nat.add_1_r in Hr.
    destruct (while_failure_step env init 2 (loop_entry fr) H0 ltac:(cbn; lia))
      as [resp ->].
    cbn [loop_entry retries delay fetches].
    erewrite while_ok_step; [|exact Hr|exact Hok|cbn; lia].
    eexists. split; reflexivity.
  - pose proof (Hfails 0%nat ltac:(lia)) as H0. rewrite Nat.add_0_r in H0.
    pose proof (Hfails 1%nat ltac:(lia)) as H1. rewrite Nat.add_1_r in H1.
    replace (fetches fr + 2)%nat with (S (S (fetches fr))) in Hr by lia.
    destruct (while_failure_step env init 2 (loop_entry fr) H0 ltac:(cbn; lia))
      as [resp ->].
    cbn [loop_entry retries delay fetches].
    edestruct (while_failure_step env init 1) as [resp' ->];
      [exact H1|cbn; lia|].
    cbn [retries delay fetches].
    erewrite while_ok_step; [|exact Hr|exact Hok|cbn; lia].
    eexists. split; reflexivity.
Qed.

(** After two failed attempts the loop is in its last turn, with a delay of
    4000 ms. *)
Lemma retry_loop_last_turn env init fr :
  fails (network env (fetches fr)) = true ->
  fails (network env (S (fetches fr))) = true ->
  exists resp,
    retry_loop retry_fuel env init fr =
    let '(t, fr', c) :=
      while 1 retrying (attempt env init)
        {| response := resp; retries := 1; delay := 4000;
           fetches := S (S (fetches fr)) |} in
    (Fetch apiUrl init :: Sleep 1000 :: Fetch apiUrl init :: Sleep 2000 :: t,
     fr', c).
Proof.
  intros H0 H1. rewrite retry_loop_unfold. unfold retry_fuel.
  destruct (while_failure_step env init 2 (loop_entry fr) H0 ltac:(cbn; lia))
    as [resp ->].
  cbn [loop_entry retries delay fetches].
  edestruct (while_failure_step env init 1) as [resp' ->];
    [exact H1|cbn; lia|].
  cbn [retries delay fetches].
  exists resp'.
  destruct (while 1 retrying _ _) as [[t fr'] c]. reflexivity.
Qed.

(** The call when the loop has left an ok response [r] after the effects
    [net]. *)
Lemma handleAnalyze_reads env st file net fr r :
  imageFile st = Some file -> reader_loads env = true ->
  retry_loop retry_fuel env (request env (payload (image_part file))) frame0
    = (net, fr, Normal tt) ->
  response fr = Some r ->
  call (handleAnalyze env st) =
  match read_outcome env r with
  | inr parsed =>
      ((prologue ++ net ++ [SetAnalysisResult parsed; SetIsLoading false])%list,
       Normal tt)
  | inl err => ((prologue ++ net ++ failure_epilogue err)%list, Normal tt)
  end.
Proof.
  intros Hfile Hload Hloop Hresp. unfold handleAnalyze.
  rewrite (handleAnalyze_call _ _ _ _ Hfile).
  rewrite (analysis_unfold _ _ _ _ Hload). unfold bind. rewrite Hloop.
  rewrite (read_result_outcome env fr r Hresp).
  destruct (read_outcome env r) as [err | parsed].
  - now rewrite app_nil_r.
  - now rewrite <- app_assoc.
Qed.

(** The call when the loop has thrown [err] after the effects [net]. *)
Lemma handleAnalyze_loop_throws env st file net fr err :
  imageFile st = Some file -> reader_loads env = true ->
  retry_loop retry_fuel env (request env (payload (image_part file))) frame0
    = (net, fr, Throw err) ->
  call (handleAnalyze env st)
  = ((prologue ++ net ++ failure_epilogue err)%list, Normal tt).
Proof.
  intros Hfile Hload Hloop. unfold handleAnalyze.
  rewrite (handleAnalyze_call _ _ _ _ Hfile).
  rewrite (analysis_unfold _ _ _ _ Hload). unfold bind. now rewrite Hloop.
Qed.

Lemma handleAnalyze_first_ok env st file k r :
  imageFile st = Some file -> reader_loads env = true ->
  (k < 3)%nat ->
  (forall i, (i < k)%nat -> fails (network env i) = true) ->
  network env k = Resolves r -> ok r = true ->
  call (handleAnalyze env st) =
  match read_outcome env r with
  | inr parsed =>
      ((prologue ++ (backoff (request env (payload (image_part file))) 1000 k
                     ++ [Fetch apiUrl (request env (payload (image_part file)))])
        ++ [SetAnalysisResult parsed; SetIsLoading false])%list, Normal tt)
  | inl err =>
      ((prologue ++ (backoff (request env (payload (image_part file))) 1000 k
                     ++ [Fetch apiUrl (request env (payload (image_part file)))])
        ++ failure_epilogue err)%list, Normal tt)
  end.
Proof.
  intros Hfile Hload Hk Hfails Hr Hok.
  destruct (retry_loop_first_ok env (request env (payload (image_part file)))
              frame0 k r Hk Hfails Hr Hok) as (fr & Hloop & Hresp).
  exact (handleAnalyze_reads env st file _ fr r Hfile Hload Hloop Hresp).
Qed.

Lemma run_through_network st net tail :
  forallb is_network net = true ->
  run st (prologue ++ net ++ tail) = run (run st prologue) tail.
Proof. intros Hnet. rewrite !run_app. f_equal. now apply run_network. Qed.

Lemma attempts_network init k :
  forallb is_network (backoff init 1000 k ++ [Fetch apiUrl init]) = true.
Proof. rewrite forallb_app, backoff_network. reflexivity. Qed.

Lemma fetch_count_attempts init k :
  fetch_count (prologue ++ (backoff init 1000 k ++ [Fetch apiUrl init])) = S k.
Proof.
  rewrite !fetch_count_app, fetch_count_backoff. cbn. lia.
Qed.

(** ** An ok response *)

(** X1: the first ok response that arrives within the three attempts is
    the one that is read. When it comes after [k] failed attempts (of any
    kind) and its text parses, the call makes [k + 1] requests, waits as
    the backoff says, and leaves the parsed value in [analysisResult] with
    [error] empty and [isLoading] false, whatever [error] and
    [analysisResult] held before. *)
Theorem first_ok_response_is_stored env st file k r result parsed :
  imageFile st = Some file -> reader_loads env = true ->
  (k < 3)%nat ->
  (forall i, (i < k)%nat -> fails (network env i) = true) ->
  network env k = Resolves r -> ok r = true ->
  json r = inr result -> is_nullish result = false ->
  truthy (answer_text result) = true ->
  JSON_parse env (answer_text result) = inr parsed ->
  call (handleAnalyze env st)
  = ((prologue
      ++ (backoff (request env (payload (image_part file))) 1000 k
          ++ [Fetch apiUrl (request env (payload (image_part file)))])
      ++ [SetAnalysisResult parsed; SetIsLoading false])%list, Normal tt) /\
  fetch_count (trace (handleAnalyze env st)) = S k /\
  exec st (handleAnalyze env st)
  = {| imageFile := imageFile st; imagePreview := imagePreview st;
       analysisResult := parsed; isLoading := false; error := "" |}.
Proof.
  intros Hfile Hload Hk Hfails Hr Hok Hjson Hnull Htext Hparse.
  pose proof (handleAnalyze_first_ok env st file k r Hfile Hload Hk Hfails Hr Hok)
    as Hcall.
  unfold read_outcome in Hcall.
  rewrite Hok, Hjson, Hnull, Htext, Hparse in Hcall. cbn [negb] in Hcall.
  split; [exact Hcall|]. unfold exec, trace. rewrite Hcall. cbn [fst]. split.
  - rewrite app_assoc, fetch_count_app, fetch_count_attempts. cbn. lia.
  - rewrite (run_through_network st _ _ (attempts_network _ k)). reflexivity.
Qed.

Lemma first_ok_response_is_stored_witness :
  exec Sample.picked
    (handleAnalyze (Demo.env_of [Sample.offline; Resolves Sample.r503;
                                 Demo.ok_with Demo.result_text]) Sample.picked)
  = {| imageFile := Some Sample.png; imagePreview := "blob:1";
       analysisResult := Demo.result; isLoading := false; error := "" |}.
Proof.
  apply (first_ok_response_is_stored
           (Demo.env_of [Sample.offline; Resolves Sample.r503;
                         Demo.ok_with Demo.result_text])
           Sample.picked Sample.png 2
           (mkResponse 200 "OK" (inr (answer_with (VStr Demo.result_text))))
           (answer_with (VStr Demo.result_text)) Demo.result);
    try reflexivity.
  - lia.
  - intros [|[|i]] Hi; [reflexivity | reflexivity | lia].
Defined.

(** X2: an ok response that cannot be used (its body is not JSON, is
    null, has no text, or the text does not parse) ends the call at once:
    no further attempt is made although retries remain, and the error of
    the read is the one reported. *)
Theorem unusable_ok_response_is_not_retried env st file k r err :
  imageFile st = Some file -> reader_loads env = true ->
  (k < 3)%nat ->
  (forall i, (i < k)%nat -> fails (network env i) = true) ->
  network env k = Resolves r -> ok r = true ->
  read_outcome env r = inl err ->
  fetch_count (trace (handleAnalyze env st)) = S k /\
  returns (handleAnalyze env st) = true /\
  exec st (handleAnalyze env st)
  = {| imageFile := imageFile st; imagePreview := imagePreview st;
       analysisResult := VNull; isLoading := false;
       error := failure_message err |}.
Proof.
  intros Hfile Hload Hk Hfails Hr Hok Hread.
  pose proof (handleAnalyze_first_ok env st file k r Hfile Hload Hk Hfails Hr Hok)
    as Hcall.
  rewrite Hread in Hcall.
  unfold returns, outcome, exec, trace. rewrite Hcall. cbn [fst snd].
  repeat split.
  - rewrite app_assoc, fetch_count_app, fetch_count_attempts. cbn. lia.
  - rewrite (run_through_network st _ _ (attempts_network _ k)). reflexivity.
Qed.

Lemma unusable_ok_response_is_not_retried_witness :
  fetch_count (trace (handleAnalyze (Demo.env_of [Demo.ok_with "{"]) Sample.picked))
  = 1%nat /\
  error (exec Sample.picked
           (handleAnalyze (Demo.env_of [Demo.ok_with "{"]) Sample.picked))
  = "Failed to analyze image. Unexpected token. Please try again.".
Proof.
  destruct (unusable_ok_response_is_not_retried
              (Demo.env_of [Demo.ok_with "{"]) Sample.picked Sample.png 0
              (mkResponse 200 "OK" (inr (answer_with (VStr "{"))))
              (mkError "Unexpected token")) as (Hcount & _ & Hstate);
    try reflexivity; try lia.
  split; [exact Hcount | now rewrite Hstate].
Defined.

(** X3: an ok response whose JSON body has no usable text (no
    [candidates], an empty list, a candidate without [content.parts[0].text],
    an empty text) is reported as "Invalid response structure from API.":
    the banner shows that message and no result is stored. *)
Theorem missing_text_is_reported env st file k r result :
  imageFile st = Some file -> reader_loads env = true ->
  (k < 3)%nat ->
  (forall i, (i < k)%nat -> fails (network env i) = true) ->
  network env k = Resolves r -> ok r = true ->
  json r = inr result -> is_nullish result = false ->
  truthy (answer_text result) = false ->
  error (exec st (handleAnalyze env st))
    = "Failed to analyze image. Invalid response structure from API.. Please try again." /\
  error_banner (render (exec st (handleAnalyze env st)))
    = Some "Failed to analyze image. Invalid response structure from API.. Please try again." /\
  analysisResult (exec st (handleAnalyze env st)) = VNull.
Proof.
  intros Hfile Hload Hk Hfails Hr Hok Hjson Hnull Htext.
  pose proof (handleAnalyze_first_ok env st file k r Hfile Hload Hk Hfails Hr Hok)
    as Hcall.
  unfold read_outcome in Hcall.
  rewrite Hok, Hjson, Hnull, Htext in Hcall. cbn [negb] in Hcall.
  unfold exec, trace. rewrite Hcall. cbn [fst].
  rewrite (run_through_network st _ _ (attempts_network _ k)).
  repeat split; reflexivity.
Qed.

Lemma missing_text_is_reported_witness :
  error (exec Sample.picked
           (handleAnalyze
              (Demo.env_of [Resolves (mkResponse 200 "OK" (inr (VObj [("candidates", VArr [])])))])
              Sample.picked))
  = "Failed to analyze image. Invalid response structure from API.. Please try again.".
Proof.
  apply (missing_text_is_reported
           (Demo.env_of [Resolves (mkResponse 200 "OK" (inr (VObj [("candidates", VArr [])])))])
           Sample.picked Sample.png 0
           (mkResponse 200 "OK" (inr (VObj [("candidates", VArr [])])))
           (VObj [("candidates", VArr [])]));
    try reflexivity; try lia.
Defined.

(** X4: once the guard of line 236 has passed, [JSON.parse] gets exactly
    the text at [candidates[0].content.parts[0].text], and the unguarded
    second read of line 237 cannot throw: reading the response comes to
    parsing that text. *)
Theorem guard_makes_second_read_safe env fr r result :
  response fr = Some r -> ok r = true ->
  json r = inr result -> is_nullish result = false ->
  truthy (answer_text result) = true ->
  read_result env fr =
  match JSON_parse env (answer_text result) with
  | inl err => ([], fr, Throw err)
  | inr parsed => ([SetAnalysisResult parsed], fr, Normal tt)
  end.
Proof.
  intros Hresp Hok Hjson Hnull Htext.
  rewrite (read_result_outcome env fr r Hresp). unfold read_outcome.
  now rewrite Hok, Hjson, Hnull, Htext.
Qed.

Lemma guard_makes_second_read_safe_witness :
  read_result (Demo.env_of [])
    (after_fetches 1
       (Some (mkResponse 200 "OK" (inr (answer_with (VStr "{}"))))) 3 1000)
  = ([SetAnalysisResult (VObj [])],
     after_fetches 1
       (Some (mkResponse 200 "OK" (inr (answer_with (VStr "{}"))))) 3 1000,
     Normal tt).
Proof.
  apply (guard_makes_second_read_safe (Demo.env_of [])
           (after_fetches 1
              (Some (mkResponse 200 "OK" (inr (answer_with (VStr "{}"))))) 3 1000)
           (mkResponse 200 "OK" (inr (answer_with (VStr "{}"))))
           (answer_with (VStr "{}"))); reflexivity.
Defined.

(** X5: a parsed result that is falsy (the text was [null], [0], [false]
    or an empty string literal) ends the call as a success without
    anything to show for it: no error banner, no dashboard, the button
    enabled again. *)
Theorem falsy_result_has_no_dashboard env st file k r result parsed :
  imageFile st = Some file -> reader_loads env = true ->
  (k < 3)%nat ->
  (forall i, (i < k)%nat -> fails (network env i) = true) ->
  network env k = Resolves r -> ok r = true ->
  json r = inr result -> is_nullish result = false ->
  truthy (answer_text result) = true ->
  JSON_parse env (answer_text result) = inr parsed ->
  truthy parsed = false ->
  render_page (exec st (handleAnalyze env st))
  = inr {| page_view :=
             {| preview_img := preview_img (render st);
                button_disabled := false;
                button_content := Label "Analyze Waste";
                error_banner := None;
                dashboard := None |};
           page_dashboard := None |}.
Proof.
  intros Hfile Hload Hk Hfails Hr Hok Hjson Hnull Htext Hparse Hfalsy.
  pose proof (handleAnalyze_first_ok env st file k r Hfile Hload Hk Hfails Hr Hok)
    as Hcall.
  unfold read_outcome in Hcall.
  rewrite Hok, Hjson, Hnull, Htext, Hparse in Hcall. cbn [negb] in Hcall.
  unfold exec, trace. rewrite Hcall. cbn [fst].
  rewrite (run_through_network st _ _ (attempts_network _ k)).
  unfold render_page, render. cbn. rewrite Hfalsy, Hfile. reflexivity.
Qed.

Lemma falsy_result_has_no_dashboard_witness :
  render_page (exec Sample.picked
                 (handleAnalyze (Demo.env_of [Demo.ok_with "null"]) Sample.picked))
  = inr {| page_view :=
             {| preview_img := Some "blob:1";
                button_disabled := false;
                button_content := Label "Analyze Waste";
                error_banner := None;
                dashboard := None |};
           page_dashboard := None |}.
Proof.
  apply (falsy_result_has_no_dashboard (Demo.env_of [Demo.ok_with "null"])
           Sample.picked Sample.png 0
           (mkResponse 200 "OK" (inr (answer_with (VStr "null"))))
           (answer_with (VStr "null")) VNull);
    try reflexivity; try lia.
Defined.

(** ** The third attempt *)

Lemma handleAnalyze_last_turn env file :
  fails (network env 0) = true -> fails (network env 1) = true ->
  exists resp,
    retry_loop retry_fuel env (request env (payload (image_part file))) frame0 =
    let '(t, fr', c) :=
      while 1 retrying (attempt env (request env (payload (image_part file))))
        {| response := resp; retries := 1; delay := 4000; fetches := 2 |} in
    (Fetch apiUrl (request env (payload (image_part file))) :: Sleep 1000
     :: Fetch apiUrl (request env (payload (image_part file))) :: Sleep 2000 :: t,
     fr', c).
Proof.
  intros H0 H1. exact (retry_loop_last_turn env _ frame0 H0 H1).
Qed.

(** X6: when the first two attempts fail and the third [fetch] rejects,
    the call stops there: three requests, waits of 1000 and 2000 ms, none
    after the last, and the error of the third rejection is the one
    reported (those of the earlier attempts are dropped). *)
Theorem third_rejection_is_reported env st file err :
  imageFile st = Some file -> reader_loads env = true ->
  fails (network env 0) = true -> fails (network env 1) = true ->
  network env 2 = Rejects err ->
  schedule (trace (handleAnalyze env st))
    = [Attempt; Wait 1000; Attempt; Wait 2000; Attempt] /\
  exec st (handleAnalyze env st)
  = {| imageFile := imageFile st; imagePreview := imagePreview st;
       analysisResult := VNull; isLoading := false;
       error := failure_message err |}.
Proof.
  intros Hfile Hload H0 H1 H2.
  destruct (handleAnalyze_last_turn env file H0 H1) as [resp Hloop].
  rewrite while_unfold, attempt_cases in Hloop. cbn in Hloop. rewrite H2 in Hloop.
  unfold exec, trace.
  rewrite (handleAnalyze_loop_throws env st file _ _ _ Hfile Hload Hloop).
  split; reflexivity.
Qed.

Lemma third_rejection_is_reported_witness :
  error (exec Sample.picked
           (handleAnalyze
              (Demo.env_of [Resolves Sample.r503; Resolves Sample.r404;
                            Rejects (mkError "Load failed")]) Sample.picked))
  = "Failed to analyze image. Load failed. Please try again.".
Proof.
  rewrite (proj2 (third_rejection_is_reported
                    (Demo.env_of [Resolves Sample.r503; Resolves Sample.r404;
                                  Rejects (mkError "Load failed")])
                    Sample.picked Sample.png (mkError "Load failed")
                    eq_refl eq_refl eq_refl eq_refl eq_refl)).
  reflexivity.
Defined.

(** X7: when the first two attempts fail and the third response has
    status 429 or at least 500, the loop still waits, 4000 ms, before it
    gives up (7000 ms of waiting in all), and the message names the status
    text of that third response. *)
Theorem third_retryable_status_waits_again env st file r :
  imageFile st = Some file -> reader_loads env = true ->
  fails (network env 0) = true -> fails (network env 1) = true ->
  network env 2 = Resolves r -> ok r = false -> retryable r = true ->
  schedule (trace (handleAnalyze env st))
    = [Attempt; Wait 1000; Attempt; Wait 2000; Attempt; Wait 4000] /\
  total_wait (trace (handleAnalyze env st)) = 7000 /\
  error (exec st (handleAnalyze env st))
    = "Failed to analyze image. Failed to analyze image after retries: "
      ++ statusText r ++ ". Please try again.".
Proof.
  intros Hfile Hload H0 H1 H2 Hok Hretry.
  destruct (handleAnalyze_last_turn env file H0 H1) as [resp Hloop].
  rewrite while_unfold, attempt_cases in Hloop. cbn in Hloop.
  rewrite H2, Hok, Hretry in Hloop. cbn in Hloop.
  unfold exec, trace.
  rewrite (handleAnalyze_reads env st file _ _ r Hfile Hload Hloop eq_refl).
  unfold read_outcome. rewrite Hok. cbn [negb fst].
  repeat split; reflexivity.
Qed.

Lemma third_retryable_status_waits_again_witness :
  total_wait (trace (handleAnalyze
                       (Demo.env_of [Sample.offline; Resolves Sample.r404;
                                     Resolves Sample.r503]) Sample.picked))
  = 7000.
Proof.
  exact (proj1 (proj2 (third_retryable_status_waits_again
                         (Demo.env_of [Sample.offline; Resolves Sample.r404;
                                       Resolves Sample.r503])
                         Sample.picked Sample.png Sample.r503
                         eq_refl eq_refl eq_refl eq_refl eq_refl eq_refl eq_refl))).
Defined.

(** X8: when the first two attempts fail and the third response is
    neither ok nor retryable, the call stops without a further wait and
    reports "APIError: <status> <statusText>", the status in decimal. *)
Theorem third_client_error_is_reported env st file r :
  imageFile st = Some file -> reader_loads env = true ->
  fails (network env 0) = true -> fails (network env 1) = true ->
  network env 2 = Resolves r -> ok r = false -> retryable r = false ->
  schedule (trace (handleAnalyze env st))
    = [Attempt; Wait 1000; Attempt; Wait 2000; Attempt] /\
  error (exec st (handleAnalyze env st))
    = "Failed to analyze image. APIError: " ++ string_of_Z (status r) ++ " "
      ++ statusText r ++ ". Please try again.".
Proof.
  intros Hfile Hload H0 H1 H2 Hok Hretry.
  destruct (handleAnalyze_last_turn env file H0 H1) as [resp Hloop].
  rewrite while_unfold, attempt_cases in Hloop. cbn in Hloop.
  rewrite H2, Hok, Hretry in Hloop.
  unfold exec, trace.
  rewrite (handleAnalyze_loop_throws env st file _ _ _ Hfile Hload Hloop).
  split; [reflexivity|].
  cbn [fst]. rewrite !run_app. cbn. unfold failure_message, api_error. cbn.
  now rewrite <- !append_cons_assoc.
Qed.

Lemma third_client_error_is_reported_witness :
  error (exec Sample.picked
           (handleAnalyze
              (Demo.env_of [Sample.offline; Resolves Sample.r503;
                            Resolves Sample.r404]) Sample.picked))
  = "Failed to analyze image. APIError: 404 Not Found. Please try again.".
Proof.
  exact (proj2 (third_client_error_is_reported
                  (Demo.env_of [Sample.offline; Resolves Sample.r503;
                                Resolves Sample.r404])
                  Sample.picked Sample.png Sample.r404
                  eq_refl eq_refl eq_refl eq_refl eq_refl eq_refl eq_refl)).
Defined.

(** ** The schedule of a run *)

(** C3: the delay starts at 1000 ms and doubles after every failed attempt
    that is retried. A run with a readable image makes a first attempt;
    when that fails (a rejection or a response that is not ok, of any
    status) it waits exactly 1000 ms and makes the second; when that fails
    too it waits exactly 2000 ms and makes the third, the last. Only a
    third response with status 429 or at least 500 is followed by one more
    wait, of 4000 ms, and by no attempt. So the attempts and waits of a
    run are given by the outcomes of its fetches, and are always an
    initial part of attempt, 1000, attempt, 2000, attempt, 4000, whose
    k-th wait is 1000 * 2^k. *)
Theorem backoff_delays env st :
  prefix_of (schedule (trace (handleAnalyze env st)))
    [Attempt; Wait 1000; Attempt; Wait 2000; Attempt; Wait 4000] /\
  [Attempt; Wait 1000; Attempt; Wait 2000; Attempt; Wait 4000]
    = flat_map (fun k => [Attempt; Wait (1000 * 2 ^ Z.of_nat k)]) (seq 0 3) /\
  (forall file,
     imageFile st = Some file -> reader_loads env = true ->
     schedule (trace (handleAnalyze env st)) =
     if negb (fails (network env 0)) then [Attempt]
     else if negb (fails (network env 1)) then [Attempt; Wait 1000; Attempt]
     else Attempt :: Wait 1000 :: Attempt :: Wait 2000 :: Attempt ::
          match network env 2 with
          | Resolves r => if negb (ok r) && retryable r then [Wait 4000] else []
          | Rejects _ => []
          end).
Proof.
  split; [|split; [reflexivity|]].
  - destruct (imageFile st) as [file|] eqn:Hfile.
    + exact (proj1 (schedule_run _ _ _ _ (handleAnalyze_run env st file Hfile))).
    + unfold trace, call, handleAnalyze, handleAnalyze_fuel. rewrite Hfile.
      cbn. auto.
  - intros file Hfile Hload.
    destruct (fails (network env 0)) eqn:H0; cbn [negb].
    2: { destruct (network env 0) as [e | r] eqn:Hr; [discriminate H0|].
         cbn [fails] in H0. apply negb_false_iff in H0.
         assert (Hnone : forall i, (i < 0)%nat -> fails (network env i) = true)
           by (intros i Hi; lia).
         pose proof (handleAnalyze_first_ok env st file 0 r Hfile Hload
                       ltac:(lia) Hnone Hr H0) as Hcall.
         unfold trace.
         destruct (read_outcome env r); rewrite Hcall; reflexivity. }
    destruct (fails (network env 1)) eqn:H1; cbn [negb].
    2: { destruct (network env 1) as [e | r] eqn:Hr; [discriminate H1|].
         cbn [fails] in H1. apply negb_false_iff in H1.
         assert (Hone : forall i, (i < 1)%nat -> fails (network env i) = true).
         { intros [|i] Hi; [exact H0 | lia]. }
         pose proof (handleAnalyze_first_ok env st file 1 r Hfile Hload
                       ltac:(lia) Hone Hr H1) as Hcall.
         unfold trace.
         destruct (read_outcome env r); rewrite Hcall; reflexivity. }
    destruct (handleAnalyze_last_turn env file H0 H1) as [resp Hloop].
    rewrite while_unfold, attempt_cases in Hloop. cbn in Hloop.
    destruct (network env 2) as [err | r] eqn:H2.
    + unfold trace.
      rewrite (handleAnalyze_loop_throws env st file _ _ _ Hfile Hload Hloop).
      reflexivity.
    + destruct (ok r) eqn:Hok; cbn [negb andb].
      * cbn in Hloop. unfold trace.
        rewrite (handleAnalyze_reads env st file _ _ r Hfile Hload Hloop eq_refl).
        destruct (read_outcome env r); reflexivity.
      * destruct (retryable r) eqn:Hretry; cbn in Hloop; unfold trace.
        -- rewrite (handleAnalyze_reads env st file _ _ r Hfile Hload Hloop eq_refl).
           destruct (read_outcome env r); reflexivity.
        -- rewrite (handleAnalyze_loop_throws env st file _ _ _ Hfile Hload Hloop).
           reflexivity.
Qed.

Lemma backoff_delays_witness :
  schedule (trace (handleAnalyze
                     (Sample.env_of [Resolves Sample.r503; Sample.offline;
                                     Resolves Sample.r503]) Sample.picked))
  = [Attempt; Wait 1000; Attempt; Wait 2000; Attempt; Wait 4000] /\
  schedule (trace (handleAnalyze
                     (Sample.env_of [Sample.offline; Resolves Sample.r200])
                     Sample.picked))
  = [Attempt; Wait 1000; Attempt].
Proof.
  split.
  - exact (proj2 (proj2 (backoff_delays
                           (Sample.env_of [Resolves Sample.r503; Sample.offline;
                                           Resolves Sample.r503]) Sample.picked))
             Sample.png eq_refl eq_refl).
  - exact (proj2 (proj2 (backoff_delays
                           (Sample.env_of [Sample.offline; Resolves Sample.r200])
                           Sample.picked))
             Sample.png eq_refl eq_refl).
Defined.

(** ** What a failing run reports *)

Lemma handleAnalyze_reports env st net err :
  forallb is_network net = true ->
  call (handleAnalyze env st)
  = ((prologue ++ net ++ failure_epilogue err)%list, Normal tt) ->
  reports env st err.
Proof.
  intros Hnet Hcall. unfold reports, returns, outcome, exec, trace.
  rewrite Hcall. cbn [fst snd].
  rewrite (run_through_network st _ _ Hnet).
  repeat split; reflexivity.
Qed.

(** C4: no exception escapes [handleAnalyze], and every kind of failing
    run ends with its error reported: the call returns, [error] holds the
    one message "Failed to analyze image. <message of the error>. Please
    try again.", the banner shows it and no result is stored. This holds
    for whatever the body of the [try] throws, and so for each kind in
    turn: a network error (the third [fetch] rejects after two failed
    attempts: its error), a non-ok status left after the loop (the third
    response has status 429 or at least 500: "Failed to analyze image
    after retries: <statusText>"), a non-ok status of another kind at the
    third attempt (the APIError), and an ok response, after fewer than
    three failed attempts, whose body is not JSON (the error of [json()]),
    is [null] (the TypeError of the read), has no text at
    [candidates[0].content.parts[0].text] ("Invalid response structure
    from API.") or has a text that [JSON.parse] refuses (its error). A
    non-empty [error] is always rendered in the banner. *)
Theorem failures_are_reported :
  (forall env st err, outcome (handleAnalyze env st) <> Throw err) /\
  (forall env st file err,
     imageFile st = Some file ->
     outcome (analysis retry_fuel env file) = Throw err ->
     reports env st err) /\
  (forall st, error st <> "" -> error_banner (render st) = Some (error st)) /\
  (forall err,
     failure_message err
     = "Failed to analyze image. " ++ message err ++ ". Please try again.") /\
  (forall env st file,
     imageFile st = Some file -> reader_loads env = true ->
     fails (network env 0) = true -> fails (network env 1) = true ->
     (forall err, network env 2 = Rejects err -> reports env st err) /\
     (forall r,
        network env 2 = Resolves r -> ok r = false -> retryable r = true ->
        reports env st
          (mkError ("Failed to analyze image after retries: " ++ statusText r))) /\
     (forall r,
        network env 2 = Resolves r -> ok r = false -> retryable r = false ->
        reports env st
          (mkError ("APIError: " ++ string_of_Z (status r) ++ " " ++ statusText r)))) /\
  (forall env st file k r,
     imageFile st = Some file -> reader_loads env = true ->
     (k < 3)%nat ->
     (forall i, (i < k)%nat -> fails (network env i) = true) ->
     network env k = Resolves r -> ok r = true ->
     (forall err, json r = inl err -> reports env st err) /\
     (forall result,
        json r = inr result -> is_nullish result = true ->
        reports env st (cannot_read (nullish_name result) "candidates")) /\
     (forall result,
        json r = inr result -> is_nullish result = false ->
        truthy (answer_text result) = false ->
        reports env st (mkError "Invalid response structure from API.")) /\
     (forall result err,
        json r = inr result -> is_nullish result = false ->
        truthy (answer_text result) = true ->
        JSON_parse env (answer_text result) = inl err ->
        reports env st err)).
Proof.
  split; [|split; [|split; [|split; [|split]]]].
  - intros env st err.
    destruct (imageFile st) as [file|] eqn:Hfile.
    + destruct (proj2 (returns_run _ _ _ _ (handleAnalyze_run env st file Hfile)))
        as [-> | ->]; discriminate.
    + unfold outcome. rewrite (handleAnalyze_guard env st Hfile). discriminate.
  - intros env st file err Hfile Hthrow.
    destruct (handleAnalyze_failure env st file err Hfile Hthrow)
      as (net & Hnet & Hcall).
    refine (handleAnalyze_reports env st net err _ Hcall).
    exact (prefix_of_network _ _ Hnet (backoff_network _ _ _)).
  - intros st Hne. unfold render; cbn.
    destruct (error st); [contradiction | reflexivity].
  - reflexivity.
  - intros env st file Hfile Hload H0 H1.
    destruct (handleAnalyze_last_turn env file H0 H1) as [resp Hloop].
    rewrite while_unfold, attempt_cases in Hloop. cbn in Hloop.
    split; [|split].
    + intros err H2. rewrite H2 in Hloop.
      refine (handleAnalyze_reports env st _ err _
                (handleAnalyze_loop_throws env st file _ _ _ Hfile Hload Hloop)).
      reflexivity.
    + intros r H2 Hok Hretry. rewrite H2, Hok, Hretry in Hloop. cbn in Hloop.
      pose proof (handleAnalyze_reads env st file _ _ r Hfile Hload Hloop eq_refl)
        as Hcall.
      unfold read_outcome in Hcall. rewrite Hok in Hcall. cbn [negb] in Hcall.
      refine (handleAnalyze_reports env st _ _ _ Hcall). reflexivity.
    + intros r H2 Hok Hretry. rewrite H2, Hok, Hretry in Hloop.
      refine (handleAnalyze_reports env st _ _ _
                (handleAnalyze_loop_throws env st file _ _ _ Hfile Hload Hloop)).
      reflexivity.
  - intros env st file k r Hfile Hload Hk Hfails Hr Hok.
    pose proof (handleAnalyze_first_ok env st file k r Hfile Hload Hk Hfails Hr Hok)
      as Hcall.
    unfold read_outcome in Hcall. rewrite Hok in Hcall. cbn [negb] in Hcall.
    split; [|split; [|split]].
    + intros err Hjson. rewrite Hjson in Hcall.
      exact (handleAnalyze_reports env st _ err (attempts_network _ k) Hcall).
    + intros result Hjson Hnull. rewrite Hjson, Hnull in Hcall.
      exact (handleAnalyze_reports env st _ _ (attempts_network _ k) Hcall).
    + intros result Hjson Hnull Htext. rewrite Hjson, Hnull, Htext in Hcall.
      exact (handleAnalyze_reports env st _ _ (attempts_network _ k) Hcall).
    + intros result err Hjson Hnull Htext Hparse.
      rewrite Hjson, Hnull, Htext, Hparse in Hcall.
      exact (handleAnalyze_reports env st _ err (attempts_network _ k) Hcall).
Qed.

Lemma failures_are_reported_witness :
  error (exec Sample.picked (handleAnalyze (Sample.env_of []) Sample.picked))
  = "Failed to analyze image. Failed to fetch. Please try again." /\
  error (exec Sample.picked
           (handleAnalyze
              (Sample.env_of [Resolves Sample.r503; Resolves Sample.r503;
                              Resolves Sample.r503]) Sample.picked))
  = "Failed to analyze image. Failed to analyze image after retries: Service Unavailable. Please try again." /\
  error (exec Sample.picked
           (handleAnalyze
              (Demo.env_of [Resolves (mkResponse 200 "OK"
                                        (inl (mkError "Unexpected end of JSON input")))])
              Sample.picked))
  = "Failed to analyze image. Unexpected end of JSON input. Please try again." /\
  error (exec Sample.picked
           (handleAnalyze
              (Demo.env_of [Sample.offline;
                            Resolves (mkResponse 200 "OK" (inr (VObj [])))])
              Sample.picked))
  = "Failed to analyze image. Invalid response structure from API.. Please try again." /\
  error (exec Sample.picked
           (handleAnalyze (Demo.env_of [Demo.ok_with "{"]) Sample.picked))
  = "Failed to analyze image. Unexpected token. Please try again.".
Proof.
  destruct failures_are_reported as (_ & _ & _ & _ & Hthird & Hread).
  split; [|split; [|split; [|split]]].
  - exact (proj1 (proj2 (proj1 (Hthird (Sample.env_of []) Sample.picked Sample.png
                                  eq_refl eq_refl eq_refl eq_refl)
                           (mkError "Failed to fetch") eq_refl))).
  - exact (proj1 (proj2 (proj1 (proj2 (Hthird
                                  (Sample.env_of [Resolves Sample.r503;
                                                  Resolves Sample.r503;
                                                  Resolves Sample.r503])
                                  Sample.picked Sample.png
                                  eq_refl eq_refl eq_refl eq_refl))
                           Sample.r503 eq_refl eq_refl eq_refl))).
  - assert (Hnone : forall i, (i < 0)%nat ->
              fails (network (Demo.env_of [Resolves (mkResponse 200 "OK"
                       (inl (mkError "Unexpected end of JSON input")))]) i) = true)
      by (intros i Hi; lia).
    exact (proj1 (proj2 (proj1 (Hread
                                  (Demo.env_of [Resolves (mkResponse 200 "OK"
                                     (inl (mkError "Unexpected end of JSON input")))])
                                  Sample.picked Sample.png 0%nat
                                  (mkResponse 200 "OK"
                                     (inl (mkError "Unexpected end of JSON input")))
                                  eq_refl eq_refl ltac:(lia) Hnone eq_refl eq_refl)
                           (mkError "Unexpected end of JSON input") eq_refl))).
  - assert (Hone : forall i, (i < 1)%nat ->
              fails (network (Demo.env_of [Sample.offline;
                       Resolves (mkResponse 200 "OK" (inr (VObj [])))]) i) = true)
      by (intros [|i] Hi; [reflexivity | lia]).
    exact (proj1 (proj2 (proj1 (proj2 (proj2 (Hread
                                  (Demo.env_of [Sample.offline;
                                     Resolves (mkResponse 200 "OK" (inr (VObj [])))])
                                  Sample.picked Sample.png 1%nat
                                  (mkResponse 200 "OK" (inr (VObj [])))
                                  eq_refl eq_refl ltac:(lia) Hone eq_refl eq_refl)))
                           (VObj []) eq_refl eq_refl eq_refl))).
  - assert (Hnone : forall i, (i < 0)%nat ->
              fails (network (Demo.env_of [Demo.ok_with "{"]) i) = true)
      by (intros i Hi; lia).
    exact (proj1 (proj2 (proj2 (proj2 (proj2 (Hread
                                  (Demo.env_of [Demo.ok_with "{"])
                                  Sample.picked Sample.png 0%nat
                                  (mkResponse 200 "OK" (inr (answer_with (VStr "{"))))
                                  eq_refl eq_refl ltac:(lia) Hnone eq_refl eq_refl)))
                           (answer_with (VStr "{")) (mkError "Unexpected token")
                           eq_refl eq_refl eq_refl eq_refl))).
Defined.

(** ** Time spent waiting *)

Lemma total_wait_app t1 t2 :
  total_wait (t1 ++ t2) = total_wait t1 + total_wait t2.
Proof.
  induction t1 as [|e t1 IH]; [reflexivity|].
  destruct e; cbn; rewrite ?IH; lia.
Qed.

Lemma total_wait_backoff_nonneg init n :
  forall d, 0 <= d -> 0 <= total_wait (backoff init d n).
Proof.
  induction n as [|n IH]; intros d Hd; cbn; [lia|].
  specialize (IH (d * 2) ltac:(lia)). lia.
Qed.

Lemma total_wait_prefix init n :
  forall d t, 0 <= d -> prefix_of t (backoff init d n) ->
              0 <= total_wait t <= total_wait (backoff init d n).
Proof.
  induction n as [|n IH]; intros d t Hd [rest Hp]; cbn [backoff] in *.
  - apply app_eq_nil in Hp as [-> _]. cbn. lia.
  - pose proof (total_wait_backoff_nonneg init n (d * 2) ltac:(lia)) as Hn.
    destruct t as [|e [|e' t']]; cbn [app] in Hp.
    + cbn. lia.
    + injection Hp as -> _. cbn. lia.
    + injection Hp as -> -> Hp.
      specialize (IH (d * 2) t' ltac:(lia) (ex_intro _ rest Hp)).
      cbn. lia.
Qed.

Lemma total_wait_run env file t c :
  analyze_run env file t c -> 0 <= total_wait t <= 7000.
Proof.
  intros [net v Hload Hnet | net err Hload Hnet Hout | Hload];
    [| |cbn; lia];
    apply (total_wait_prefix _ 3 1000) in Hnet; try lia;
    change (total_wait (backoff (request env (payload (image_part file))) 1000 3))
      with 7000 in Hnet;
    rewrite !total_wait_app;
    [change (total_wait [SetAnalysisResult v; SetIsLoading false]) with 0
    |change (total_wait (failure_epilogue err)) with 0];
    change (total_wait prologue) with 0; lia.
Qed.

(** X9: whatever the network does, a call of [handleAnalyze] spends at
    most 7000 ms in its backoff waits. *)
Theorem total_wait_bounded env st :
  0 <= total_wait (trace (handleAnalyze env st)) <= 7000.
Proof.
  destruct (imageFile st) as [file|] eqn:Hfile.
  - exact (total_wait_run _ _ _ _ (handleAnalyze_run env st file Hfile)).
  - unfold trace. rewrite (handleAnalyze_guard env st Hfile). cbn. lia.
Qed.

(** ** The image *)

Lemma handleAnalyze_keeps_image env st :
  imageFile (exec st (handleAnalyze env st)) = imageFile st /\
  imagePreview (exec st (handleAnalyze env st)) = imagePreview st.
Proof.
  destruct (imageFile st) as [file|] eqn:Hfile.
  - destruct (analyze_run_state _ _ _ _ st (handleAnalyze_run env st file Hfile))
      as (Hf & Hp & _).
    unfold exec. rewrite Hf, Hp. auto.
  - unfold exec, trace. rewrite (handleAnalyze_guard env st Hfile). cbn. auto.
Qed.

Lemma last_upload_from actions :
  forall st acc, shows st acc ->
                 shows (fold_left step actions st) (last_upload actions acc).
Proof.
  induction actions as [|a actions IH]; intros st acc Hst; [exact Hst|].
  cbn [fold_left last_upload]. destruct a as [preview e | env]; apply IH.
  - unfold step, exec, trace, call, handleFileChange.
    destruct (nth_error (files e) 0) as [file|]; [split; reflexivity | exact Hst].
  - destruct Hst as [Hf Hp], (handleAnalyze_keeps_image env st) as [Hf' Hp'].
    split; cbn [step]; congruence.
Qed.

(** X10: after any sequence of uploads and analyses the page holds the
    file and the preview of the last upload that carried a file (none and
    the empty preview when there was no such upload): no analysis, failed
    or not, and no cancelled file dialog ever changes or clears them. *)
Theorem image_is_last_upload actions :
  imageFile (after actions) = option_map fst (last_upload actions None) /\
  imagePreview (after actions)
  = match last_upload actions None with
    | Some (_, preview) => preview
    | None => ""
    end.
Proof.
  apply (last_upload_from actions initial None). split; reflexivity.
Qed.

(** ** A file that cannot be read *)

(** X11: when the file read fails, the call never returns: no request is
    sent and no error is shown, and [isLoading] stays true. Later uploads
    do not help: the button stays disabled with the spinner, so no further
    analysis can be started from the page. *)
Theorem unreadable_file_blocks_page env st file uploads :
  imageFile st = Some file -> reader_loads env = false ->
  let st' := run (exec st (handleAnalyze env st)) (upload_traces uploads) in
  call (handleAnalyze env st) = (prologue, Never) /\
  isLoading st' = true /\
  button_disabled (render st') = true /\
  button_content (render st') = Spinner /\
  error_banner (render st') = None.
Proof.
  intros Hfile Hload st'.
  assert (Hcall : call (handleAnalyze env st) = (prologue, Never)).
  { pose proof (handleAnalyze_run env st file Hfile) as Hrun.
    unfold trace, outcome in Hrun.
    destruct (call (handleAnalyze env st)) as [t c]. cbn [fst snd] in Hrun.
    inversion Hrun; subst; congruence. }
  destruct (upload_traces_clear uploads) as (Hu1 & _ & Hu3).
  assert (Hloading : isLoading st' = true).
  { unfold st', exec, trace. rewrite Hcall. cbn [fst].
    now rewrite run_loading_flags, Hu3. }
  assert (Herror : error st' = "").
  { unfold st', exec, trace. rewrite Hcall. cbn [fst].
    apply (run_clears_error _ Hu1). now left. }
  split; [exact Hcall|]. split; [exact Hloading|].
  unfold render; cbn. rewrite Hloading, Herror. auto.
Qed.

Lemma unreadable_file_blocks_page_witness :
  button_disabled
    (render (run (exec Sample.picked (handleAnalyze Sample.unreadable Sample.picked))
               (upload_traces [("blob:2", mkChange [Demo.jpg])])))
  = true.
Proof.
  exact (proj1 (proj2 (proj2 (unreadable_file_blocks_page Sample.unreadable
                                Sample.picked Sample.png
                                [("blob:2", mkChange [Demo.jpg])]
                                eq_refl eq_refl)))).
Defined.

(** C8: a call that passes the image guard and whose file read fails
    never resets [isLoading]. [reader.result] is then [null], the
    [onloadend] callback of line 25 throws inside the event handler, the
    promise of [fileToGenerativePart] is never settled, and the [await] of
    line 73 never resumes: the call has set [isLoading] to true and
    stops there, before any request, without reaching the [catch] or the
    [finally] of lines 243-248. Nothing is left to run, and the page rests
    with [isLoading] true, the button disabled and no error shown. With a
    read that completes, the same call from the same state returns with
    [isLoading] false, whatever the network and the parsers do. *)
Theorem failed_read_keeps_loading env st file :
  imageFile st = Some file -> reader_loads env = false ->
  call (handleAnalyze env st)
    = ([SetIsLoading true; SetError ""; SetAnalysisResult VNull], Never) /\
  returns (handleAnalyze env st) = false /\
  ~ In (SetIsLoading false) (trace (handleAnalyze env st)) /\
  fetch_count (trace (handleAnalyze env st)) = 0%nat /\
  exec st (handleAnalyze env st)
    = {| imageFile := Some file; imagePreview := imagePreview st;
         analysisResult := VNull; isLoading := true; error := "" |} /\
  button_disabled (render (exec st (handleAnalyze env st))) = true /\
  error_banner (render (exec st (handleAnalyze env st))) = None /\
  (forall env',
     reader_loads env' = true ->
     returns (handleAnalyze env' st) = true /\
     isLoading (exec st (handleAnalyze env' st)) = false).
Proof.
  intros Hfile Hload.
  assert (Hcall : call (handleAnalyze env st) = (prologue, Never)).
  { pose proof (handleAnalyze_run env st file Hfile) as Hrun.
    unfold trace, outcome in Hrun.
    destruct (call (handleAnalyze env st)) as [t c]. cbn [fst snd] in Hrun.
    inversion Hrun; subst; congruence. }
  assert (Hexec : exec st (handleAnalyze env st)
                  = {| imageFile := Some file; imagePreview := imagePreview st;
                       analysisResult := VNull; isLoading := true; error := "" |}).
  { unfold exec, trace. rewrite Hcall. cbn. now rewrite Hfile. }
  split; [exact Hcall|].
  split; [unfold returns, outcome; now rewrite Hcall|].
  split.
  { unfold trace. rewrite Hcall. cbn.
    intros [H | [H | [H | []]]]; discriminate H. }
  split; [unfold trace; now rewrite Hcall|].
  split; [exact Hexec|].
  rewrite Hexec.
  split; [reflexivity|]. split; [reflexivity|].
  intros env' Hload'.
  pose proof (handleAnalyze_run env' st file Hfile) as Hrun.
  pose proof (proj1 (returns_run _ _ _ _ Hrun) Hload') as Hout.
  pose proof (analyze_run_state _ _ _ _ st Hrun) as (_ & _ & Hst).
  unfold returns, exec. rewrite Hout in Hst |- *.
  split; [reflexivity | apply Hst].
Qed.

Lemma failed_read_keeps_loading_witness :
  call (handleAnalyze Sample.unreadable Sample.picked)
    = ([SetIsLoading true; SetError ""; SetAnalysisResult VNull], Never) /\
  isLoading (exec Sample.picked (handleAnalyze Sample.unreadable Sample.picked))
    = true /\
  isLoading (exec Sample.picked
               (handleAnalyze (Sample.env_of []) Sample.picked)) = false.
Proof.
  destruct (failed_read_keeps_loading Sample.unreadable Sample.picked Sample.png
              eq_refl eq_refl)
    as (Hcall & _ & _ & _ & Hexec & _ & _ & Hreadable).
  split; [exact Hcall|]. split.
  - now rewrite Hexec.
  - exact (proj2 (Hreadable (Sample.env_of []) eq_refl)).
Defined.

(** ** Uploads while the request is out *)

Lemma interleaving_left_all {A} (t : list A) : interleaving t [] t.
Proof. induction t; constructor; auto. Qed.

Lemma interleaving_right_then {A} (u b : list A) : interleaving b u (u ++ b).
Proof.
  induction u as [|x u IH]; cbn; [apply interleaving_left_all|].
  now apply interleaving_right.
Qed.

Lemma interleaving_insert {A} (a u b : list A) :
  interleaving (a ++ b) u (a ++ u ++ b).
Proof.
  induction a as [|x a IH]; cbn; [apply interleaving_right_then|].
  now apply interleaving_left.
Qed.

(** X13: an upload made while the request of an analysis is out does not
    stop that analysis: when the response arrives its result is stored all
    the same, so the page ends with the new file and preview next to the
    result computed for the old file. *)
Theorem upload_during_fetch_keeps_old_result
    env st file r result parsed preview' file' others :
  imageFile st = Some file -> reader_loads env = true ->
  network env 0 = Resolves r -> ok r = true ->
  json r = inr result -> is_nullish result = false ->
  truthy (answer_text result) = true ->
  JSON_parse env (answer_text result) = inr parsed ->
  let upload := trace (handleFileChange preview' (mkChange (file' :: others))) in
  let m := ((prologue ++ [Fetch apiUrl (request env (payload (image_part file)))])
            ++ upload ++ [SetAnalysisResult parsed; SetIsLoading false])%list in
  interleaving (trace (handleAnalyze env st)) upload m /\
  run st m = {| imageFile := Some file'; imagePreview := preview';
                analysisResult := parsed; isLoading := false; error := "" |}.
Proof.
  intros Hfile Hload Hr Hok Hjson Hnull Htext Hparse upload m.
  assert (Hfails : forall i, (i < 0)%nat -> fails (network env i) = true)
    by (intros i Hi; lia).
  pose proof (handleAnalyze_first_ok env st file 0 r Hfile Hload
                ltac:(lia) Hfails Hr Hok) as Hcall.
  unfold read_outcome in Hcall.
  rewrite Hok, Hjson, Hnull, Htext, Hparse in Hcall. cbn [negb backoff app] in Hcall.
  split.
  - unfold trace at 1. rewrite Hcall. cbn [fst].
    exact (interleaving_insert
             (prologue ++ [Fetch apiUrl (request env (payload (image_part file)))])
             upload [SetAnalysisResult parsed; SetIsLoading false]).
  - reflexivity.
Qed.

Lemma upload_during_fetch_keeps_old_result_witness :
  run Sample.picked
    ((prologue ++ [Fetch apiUrl (request (Demo.env_of [Demo.ok_with Demo.result_text])
                                   (payload (image_part Sample.png)))])
     ++ trace (handleFileChange "blob:2" (mkChange [Demo.jpg]))
     ++ [SetAnalysisResult Demo.result; SetIsLoading false])
  = {| imageFile := Some Demo.jpg; imagePreview := "blob:2";
       analysisResult := Demo.result; isLoading := false; error := "" |}.
Proof.
  exact (proj2 (upload_during_fetch_keeps_old_result
                  (Demo.env_of [Demo.ok_with Demo.result_text])
                  Sample.picked Sample.png
                  (mkResponse 200 "OK" (inr (answer_with (VStr Demo.result_text))))
                  (answer_with (VStr Demo.result_text)) Demo.result
                  "blob:2" Demo.jpg []
                  eq_refl eq_refl eq_refl eq_refl eq_refl eq_refl eq_refl eq_refl)).
Defined.

Lemma uploads_during_analysis_witness :
  error (run Sample.picked
           ((prologue ++ [Fetch apiUrl (request (Demo.env_of [Demo.ok_with "{}"])
                                          (payload (image_part Sample.png)))])
            ++ upload_traces [("blob:2", mkChange [Demo.jpg])]
            ++ [SetAnalysisResult (VObj []); SetIsLoading false])) = "" \/
  analysisResult
    (run Sample.picked
       ((prologue ++ [Fetch apiUrl (request (Demo.env_of [Demo.ok_with "{}"])
                                      (payload (image_part Sample.png)))])
        ++ upload_traces [("blob:2", mkChange [Demo.jpg])]
        ++ [SetAnalysisResult (VObj []); SetIsLoading false])) = VNull.
Proof.
  apply (uploads_during_analysis (Demo.env_of [Demo.ok_with "{}"])
           Sample.picked Sample.png [("blob:2", mkChange [Demo.jpg])]).
  - reflexivity.
  - apply (interleaving_insert
             (prologue ++ [Fetch apiUrl (request (Demo.env_of [Demo.ok_with "{}"])
                                           (payload (image_part Sample.png)))])
             (upload_traces [("blob:2", mkChange [Demo.jpg])])
             [SetAnalysisResult (VObj []); SetIsLoading false]).
Defined.

(** ** Rendering the dashboard *)

Lemma prop_of_not_nullish v k :
  is_nullish v = false -> prop_of v k = inr (get_opt v k).
Proof.
  intros H. unfold prop_of. now rewrite (get_not_nullish v k H).
Qed.

Lemma prop_of_nullish v k :
  is_nullish v = true -> exists err, prop_of v k = inl err.
Proof. destruct v; try discriminate; intros _; eexists; reflexivity. Qed.

Lemma cells_of_objects xs :
  no_null_entry xs = true ->
  forall index,
    map_entries
      (fun index entry =>
         match prop_of entry "color" with
         | inl err => inl err
         | inr fill => inr (mkCell ("cell-" ++ string_of_Z (Z.of_nat index)) fill)
         end) index xs
    = inr (entry_cells index xs).
Proof.
  induction xs as [|x xs IH]; intros Hall index; [reflexivity|].
  cbn in Hall. apply andb_true_iff in Hall as [Hx Hall].
  apply negb_true_iff in Hx.
  cbn [map_entries entry_cells].
  now rewrite (prop_of_not_nullish x "color" Hx), (IH Hall).
Qed.

Lemma rows_of_objects xs :
  no_null_entry xs = true ->
  forall index,
    map_entries
      (fun (_ : nat) item =>
         match prop_of item "name" with
         | inl err => inl err
         | inr key =>
         match prop_of item "color" with
         | inl err => inl err
         | inr color =>
         match prop_of item "name" with
         | inl err => inl err
         | inr name =>
         match prop_of item "value" with
         | inl err => inl err
         | inr v => inr (mkRow key color name v)
         end end end end) index xs
    = inr (entry_rows xs).
Proof.
  induction xs as [|x xs IH]; intros Hall index; [reflexivity|].
  cbn in Hall. apply andb_true_iff in Hall as [Hx Hall].
  apply negb_true_iff in Hx.
  cbn [map_entries entry_rows map].
  rewrite !(prop_of_not_nullish x _ Hx), (IH Hall). reflexivity.
Qed.

Lemma cells_of_null_entry xs :
  no_null_entry xs = false ->
  forall index,
    exists err,
      map_entries
        (fun index entry =>
           match prop_of entry "color" with
           | inl err => inl err
           | inr fill => inr (mkCell ("cell-" ++ string_of_Z (Z.of_nat index)) fill)
           end) index xs
      = inl err.
Proof.
  induction xs as [|x xs IH]; intros Hall index; [discriminate|].
  cbn in Hall. cbn [map_entries].
  destruct (is_nullish x) eqn:Hx.
  - destruct (prop_of_nullish x "color" Hx) as [err ->]. now exists err.
  - rewrite (prop_of_not_nullish x "color" Hx).
    destruct (IH Hall (S index)) as [err ->]. now exists err.
Qed.

(** The dashboard of a result that is not null: what it shows, or that it
    throws. *)
Lemma render_dashboard_cases v :
  is_nullish v = false ->
  match get_opt v "waste_composition" with
  | VArr xs =>
      if no_null_entry xs
      then render_dashboard v
           = inr {| pie_data := VArr xs;
                    pie_cells := entry_cells 0 xs;
                    legend := entry_rows xs;
                    trends_data := get_opt v "disposal_trends";
                    rates_data := get_opt v "recycling_rates";
                    item_waste_type := get_opt v "waste_type";
                    item_home_treatment := get_opt v "home_treatment";
                    item_industry_treatment := get_opt v "industry_treatment" |}
      else exists err, render_dashboard v = inl err
  | _ => exists err, render_dashboard v = inl err
  end.
Proof.
  intros Hv. unfold render_dashboard.
  rewrite !(prop_of_not_nullish v _ Hv).
  destruct (get_opt v "waste_composition") as [| | b | x | s | xs | fields];
    try (eexists; reflexivity).
  cbn [array_map].
  destruct (no_null_entry xs) eqn:Hall.
  - now rewrite (cells_of_objects xs Hall), (rows_of_objects xs Hall).
  - destruct (cells_of_null_entry xs Hall 0) as [err ->]. now exists err.
Qed.

(** X14: for a truthy result the component gets through the expressions
    of the dashboard without a throw exactly when the result's
    [waste_composition] is an array without null entries. Nothing else is
    needed: the other fields of the schema may be missing or of any
    type. *)
Theorem dashboard_renders_iff v :
  truthy v = true ->
  (exists d, render_dashboard v = inr d) <->
  (exists xs, get_opt v "waste_composition" = VArr xs /\
              no_null_entry xs = true).
Proof.
  intros Hv. pose proof (render_dashboard_cases v (truthy_not_nullish v Hv)) as H.
  destruct (get_opt v "waste_composition") as [| | b | x | s | xs | fields];
    try (split; [intros [d Hd]; destruct H as [err H]; congruence
                |intros (xs' & Hxs & _); discriminate Hxs]).
  destruct (no_null_entry xs) eqn:Hall; split.
  - intros _. now exists xs.
  - intros _. eexists. exact H.
  - intros [d Hd]. destruct H as [err H]. congruence.
  - intros (xs' & Hxs & Hall'). injection Hxs as <-. congruence.
Qed.

Lemma dashboard_renders_iff_witness :
  exists d, render_dashboard Demo.result = inr d.
Proof.
  apply (proj2 (dashboard_renders_iff Demo.result eq_refl)).
  eexists. split; reflexivity.
Defined.

Lemma length_entry_cells index xs : length (entry_cells index xs) = length xs.
Proof.
  revert index. induction xs as [|x xs IH]; intros index; [reflexivity|].
  cbn. now rewrite IH.
Qed.

Lemma fills_entry_cells index xs :
  map cell_fill (entry_cells index xs) = map (fun x => get_opt x "color") xs.
Proof.
  revert index. induction xs as [|x xs IH]; intros index; [reflexivity|].
  cbn. now rewrite IH.
Qed.

(** X15: when it is built, the dashboard follows [waste_composition]
    entry by entry and in order: one pie cell per entry, keyed [cell-0],
    [cell-1], ... and filled with the entry's [color], and one legend row
    per entry with its [name], [color] and [value]; the charts get the
    three arrays, and the text nodes the three strings, as the result
    holds them. *)
Theorem dashboard_follows_result v xs :
  truthy v = true ->
  get_opt v "waste_composition" = VArr xs ->
  no_null_entry xs = true ->
  render_dashboard v
  = inr {| pie_data := VArr xs;
           pie_cells := entry_cells 0 xs;
           legend := entry_rows xs;
           trends_data := get_opt v "disposal_trends";
           rates_data := get_opt v "recycling_rates";
           item_waste_type := get_opt v "waste_type";
           item_home_treatment := get_opt v "home_treatment";
           item_industry_treatment := get_opt v "industry_treatment" |} /\
  length (entry_cells 0 xs) = length xs /\
  length (entry_rows xs) = length xs /\
  map cell_fill (entry_cells 0 xs) = map (fun x => get_opt x "color") xs.
Proof.
  intros Hv Hdata Hall.
  pose proof (render_dashboard_cases v (truthy_not_nullish v Hv)) as H.
  rewrite Hdata, Hall in H. split; [exact H|].
  split; [apply length_entry_cells|].
  split; [unfold entry_rows; apply length_map | apply fills_entry_cells].
Qed.

Lemma dashboard_follows_result_witness :
  exists d,
    render_dashboard Demo.result = inr d /\
    map cell_key (pie_cells d) = ["cell-0"; "cell-1"] /\
    map cell_fill (pie_cells d) = [VStr "#e78a53"; VStr "#d97c3a"].
Proof.
  eexists. split.
  - exact (proj1 (dashboard_follows_result Demo.result _ eq_refl eq_refl eq_refl)).
  - split; reflexivity.
Defined.

(** X16: the response is not checked against the schema before it is
    stored. A truthy parsed value whose [waste_composition] is not an
    array, or is an array with a null entry (so an empty object, a string,
    a number, an object with other keys), is stored as a success, with no
    error message, and then the component throws while it renders. *)
Theorem wrong_shape_crashes_render env st file k r result parsed :
  imageFile st = Some file -> reader_loads env = true ->
  (k < 3)%nat ->
  (forall i, (i < k)%nat -> fails (network env i) = true) ->
  network env k = Resolves r -> ok r = true ->
  json r = inr result -> is_nullish result = false ->
  truthy (answer_text result) = true ->
  JSON_parse env (answer_text result) = inr parsed ->
  truthy parsed = true ->
  (forall xs, get_opt parsed "waste_composition" = VArr xs ->
              no_null_entry xs = false) ->
  returns (handleAnalyze env st) = true /\
  error (exec st (handleAnalyze env st)) = "" /\
  exists err, render_page (exec st (handleAnalyze env st)) = inl err.
Proof.
  intros Hfile Hload Hk Hfails Hr Hok Hjson Hnull Htext Hparse Htruthy Hshape.
  pose proof (handleAnalyze_first_ok env st file k r Hfile Hload Hk Hfails Hr Hok)
    as Hcall.
  unfold read_outcome in Hcall.
  rewrite Hok, Hjson, Hnull, Htext, Hparse in Hcall. cbn [negb] in Hcall.
  unfold returns, outcome, exec, trace. rewrite Hcall. cbn [fst snd].
  rewrite (run_through_network st _ _ (attempts_network _ k)).
  split; [reflexivity|]. split; [reflexivity|].
  unfold render_page. cbn. rewrite Htruthy.
  pose proof (render_dashboard_cases parsed (truthy_not_nullish _ Htruthy)) as H.
  destruct (get_opt parsed "waste_composition") as [| | b | x | s | xs | fields];
    try (destruct H as [err ->]; now exists err).
  rewrite (Hshape xs eq_refl) in H. destruct H as [err ->]. now exists err.
Qed.

Lemma wrong_shape_crashes_render_witness :
  error (exec Sample.picked
           (handleAnalyze (Demo.env_of [Demo.ok_with "{}"]) Sample.picked)) = "" /\
  exists err,
    render_page (exec Sample.picked
                   (handleAnalyze (Demo.env_of [Demo.ok_with "{}"]) Sample.picked))
    = inl err.
Proof.
  apply (wrong_shape_crashes_render (Demo.env_of [Demo.ok_with "{}"])
           Sample.picked Sample.png 0
           (mkResponse 200 "OK" (inr (answer_with (VStr "{}"))))
           (answer_with (VStr "{}")) (VObj []));
    try reflexivity; try lia.
  intros xs H. discriminate H.
Defined.

(** X17: whenever an error is set the component itself does not throw:
    after any sequence of uploads and analyses, a non-empty [error] comes
    with a page that is built without exception, shows the banner with
    that text and has no dashboard. *)
Theorem error_state_renders actions :
  error (after actions) <> "" ->
  render_page (after actions)
  = inr {| page_view := render (after actions); page_dashboard := None |} /\
  error_banner (render (after actions)) = Some (error (after actions)).
Proof.
  intros Herr.
  destruct (consistent_after_from actions initial consistent_initial)
    as [[He | Hres] _]; fold (after actions) in *; [contradiction|].
  unfold render_page. rewrite Hres. split; [reflexivity|].
  unfold render; cbn. destruct (error (after actions)); [contradiction|reflexivity].
Qed.

Lemma error_state_renders_witness :
  let actions := [Upload "blob:1" (mkChange [Sample.png]);
                  Analyze (Demo.env_of [Demo.ok_with Demo.result_text]);
                  Analyze (Demo.env_of [])] in
  error_banner (render (after actions))
  = Some "Failed to analyze image. Failed to fetch. Please try again.".
Proof.
  cbv zeta.
  rewrite (proj2 (error_state_renders
                    [Upload "blob:1" (mkChange [Sample.png]);
                     Analyze (Demo.env_of [Demo.ok_with Demo.result_text]);
                     Analyze (Demo.env_of [])]
                    ltac:(intros H; vm_compute in H; discriminate H))).
  reflexivity.
Defined.

(** ** An empty file *)

(** X18: an empty file is not turned away: its data URL has nothing after
    the comma, so the request goes out with an empty string as inline
    data, next to the file's MIME type. *)
Theorem empty_file_is_sent env st file :
  imageFile st = Some file -> reader_loads env = true ->
  file_bytes file = [] ->
  occurs ","%char (file_type file) = false ->
  In (Fetch apiUrl
        (request env
           (payload (VObj [("inlineData",
                            VObj [("data", VStr "");
                                  ("mimeType", VStr (file_type file))])]))))
     (trace (handleAnalyze env st)).
Proof.
  intros Hfile Hload Hbytes Htype.
  pose proof (first_fetch_run _ _ _ _ (handleAnalyze_run env st file Hfile) Hload)
    as Hin.
  rewrite (image_part_inline file Htype) in Hin.
  unfold inline_part in Hin. now rewrite Hbytes in Hin.
Qed.

Lemma empty_file_is_sent_witness :
  fetch_count
    (trace (handleAnalyze (Demo.env_of [Demo.ok_with "{}"])
              (exec initial
                 (handleFileChange "blob:3"
                    (mkChange [mkFile "empty.png" "image/png" []]))))) = 1%nat /\
  In (Fetch apiUrl
        (request (Demo.env_of [Demo.ok_with "{}"])
           (payload (VObj [("inlineData",
                            VObj [("data", VStr "");
                                  ("mimeType", VStr "image/png")])]))))
     (trace (handleAnalyze (Demo.env_of [Demo.ok_with "{}"])
               (exec initial
                  (handleFileChange "blob:3"
                     (mkChange [mkFile "empty.png" "image/png" []]))))).
Proof.
  split; [reflexivity|].
  exact (empty_file_is_sent (Demo.env_of [Demo.ok_with "{}"])
           (exec initial
              (handleFileChange "blob:3"
                 (mkChange [mkFile "empty.png" "image/png" []])))
           (mkFile "empty.png" "image/png" [])
           eq_refl eq_refl eq_refl eq_refl).
Defined.
